(** * The exchange-rate service of the Bank of China rate bot

    A shallow embedding of [app/core/config.py] (the [Settings] class) and of
    [app/services/exchange_rate.py] (the parser [_parse_exchange_rate_data],
    the cached fetcher [fetch_and_parse_rate_data] and the calculator
    [get_exchange_rate]), of the command handlers of [app/bot/handlers.py]
    that call them, of [sanitize_user_data] in [app/utils/redact.py] and of
    [validate_amount] in [app/utils/error_handler.py], followed by the
    properties of the written specification that concern them and by
    further properties of the code.

    Conventions.
    - Python [str] values are Rocq strings holding the UTF-8 bytes.
    - Python [float] values are binary64 primitive floats.
    - A Python [dict] read only by key is a [gmap]; [CURRENCY_NAMES], whose
      items are iterated in insertion order, is an association list.
    - A [datetime] is a number of seconds ([Z]); adding a [timedelta] adds.
    - Exceptions are the [Raise] results of the monad [exc]. *)

From Stdlib Require Import ZArith String Ascii List Floats Bool Lia.
From stdpp Require Import gmap strings list fin_maps.

Set Warnings "-inexact-float".
Set Default Proof Using "Type".
Local Open Scope string_scope.

(** ** Exceptions *)

(** The message of the [Exception] that [fetch_and_parse_rate_data] raises
    from each of its four handlers. *)
Inductive fetch_failure : Set :=
| TimedOut          (* "Request to {url} timed out after {timeout} seconds" *)
| HttpError         (* "HTTP error: {e}" *)
| NetworkError      (* "Network error: {e}" *)
| FetchOrParseError (* "Error fetching or parsing exchange rate data: {e}" *).

Inductive exn : Set :=
| TypeError
| ValueError
| ZeroDivisionError
| TimeoutException
| HTTPStatusError (status : Z)
| RequestError
| Exception (why : fetch_failure).

Inductive exc (A : Type) : Type :=
| Return (a : A)
| Raise (e : exn).
Arguments Return {A} a.
Arguments Raise {A} e.

#[export] Instance exc_ret : MRet exc := fun _ a => Return a.
#[export] Instance exc_bind : MBind exc := fun _ _ k c =>
  match c with
  | Return a => k a
  | Raise e => Raise e
  end.

(** [try: c except e: h e] *)
Definition try_except {A} (c : exc A) (h : exn -> exc A) : exc A :=
  match c with
  | Return a => Return a
  | Raise e => h e
  end.

(** ** The Python runtime

    Three built-ins whose full definition lives in the interpreter.  The
    model is parametric in them; [None] stands for the [ValueError] that
    [float] and [int] raise on text they do not accept. *)
Class PyRuntime : Type := {
  py_strip : string -> string;
  py_float : string -> option float;
  py_int : string -> option Z
}.

(** [x / y] on floats: CPython raises when the divisor compares equal to
    zero (either sign) and otherwise divides as IEEE 754 does. *)
Definition py_truediv (x y : float) : exc float :=
  if PrimFloat.eqb y 0 then Raise ZeroDivisionError else Return (PrimFloat.div x y).

(** Truth value of an optional string: [None] and [""] are false. *)
Definition truthy (s : option string) : bool :=
  match s with
  | None | Some "" => false
  | Some _ => true
  end.

(** *** Insertion-ordered dictionaries with string keys *)

Fixpoint dict_get {V} (k : string) (d : list (string * V)) : option V :=
  match d with
  | [] => None
  | (k', v) :: d' => if String.eqb k' k then Some v else dict_get k d'
  end.

(** [d[k] = v]: an existing key keeps its place, a new one goes last. *)
Fixpoint dict_set {V} (k : string) (v : V) (d : list (string * V)) : list (string * V) :=
  match d with
  | [] => [(k, v)]
  | (k', v') :: d' =>
      if String.eqb k' k then (k', v) :: d' else (k', v') :: dict_set k v d'
  end.

(** [s.split(sep)] for a one-character separator. *)
Fixpoint split_on (sep : ascii) (s : string) : list string :=
  match s with
  | EmptyString => [""]
  | String c s' =>
      if Ascii.eqb c sep then "" :: split_on sep s'
      else match split_on sep s' with
           | [] => [String c ""]
           | w :: ws => String c w :: ws
           end
  end.

(** [s.split(sep, 1)] when [sep in s], [None] otherwise. *)
Fixpoint split_once (sep : ascii) (s : string) : option (string * string) :=
  match s with
  | EmptyString => None
  | String c s' =>
      if Ascii.eqb c sep then Some ("", s')
      else match split_once sep s' with
           | Some (k, v) => Some (String c k, v)
           | None => None
           end
  end.

(** [l.index(x)], [None] when [x not in l]. *)
Fixpoint list_index (x : string) (l : list string) : option nat :=
  match l with
  | [] => None
  | y :: l' => if String.eqb y x then Some 0%nat else S <$> list_index x l'
  end.

(** ** app/core/config.py *)

(** [os.environ] once [load_dotenv] has run. *)
Abbreviation environ := (gmap string string).

(** The attributes of [Settings] whose computation can raise, and those the
    rate service reads.  The remaining ones are plain [os.environ.get]
    results and two booleans; nothing below depends on them. *)
Record Settings : Type := {
  APP_PORT : Z;
  APP_WORKERS : Z;
  CACHE_TIMEOUT : Z;
  BOC_URL : option string;
  SUPPORTED_CURRENCIES : list string;
  CURRENCY_NAMES : list (string * string)
}.

(** [Settings._parse_list] *)
Definition _parse_list (value : string) : list string :=
  if String.eqb value "" then [] else split_on "," value.

(** [Settings._parse_dict] *)
Definition _parse_dict (value : string) : list (string * string) :=
  if String.eqb value "" then []
  else
    foldl (fun result item =>
             match split_once ":" item with
             | Some (key, val) => dict_set key val result
             | None => result
             end) [] (split_on "," value).

(** [int(x)] for [x] an optional string: [int(None)] is a [TypeError]. *)
Definition int_of_text `{PyRuntime} (x : option string) : exc Z :=
  match x with
  | None => Raise TypeError
  | Some s => match py_int s with
              | Some z => Return z
              | None => Raise ValueError
              end
  end.

(** [a or b] on strings. *)
Definition str_or (a b : string) : string :=
  if String.eqb a "" then b else a.

(** [Settings.__init__] *)
Definition Settings_init `{PyRuntime} (env : environ) : exc Settings :=
  port ← int_of_text (env !! "APP_PORT");
  workers ← int_of_text (Some (default "4" (env !! "APP_WORKERS")));
  timeout ← int_of_text (Some (str_or (default "5" (env !! "CACHE_TIMEOUT")) "5"));
  mret {| APP_PORT := port;
          APP_WORKERS := workers;
          CACHE_TIMEOUT := timeout;
          BOC_URL := env !! "BOC_URL";
          SUPPORTED_CURRENCIES := _parse_list (default "" (env !! "SUPPORTED_CURRENCIES"));
          CURRENCY_NAMES := _parse_dict (default "" (env !! "CURRENCY_NAMES")) |}.

(** Attribute values, as [getattr] hands them out. *)
Inductive attr_value : Type :=
| AInt (z : Z)
| AStr (s : option string)
| AList (l : list string)
| ADict (d : list (string * string)).

(** [getattr(settings, name, default)] *)
Definition Settings_getattr (s : Settings) (name : string) (dflt : attr_value) : attr_value :=
  if String.eqb name "APP_PORT" then AInt (APP_PORT s)
  else if String.eqb name "APP_WORKERS" then AInt (APP_WORKERS s)
  else if String.eqb name "CACHE_TIMEOUT" then AInt (CACHE_TIMEOUT s)
  else if String.eqb name "BOC_URL" then AStr (BOC_URL s)
  else if String.eqb name "SUPPORTED_CURRENCIES" then AList (SUPPORTED_CURRENCIES s)
  else if String.eqb name "CURRENCY_NAMES" then ADict (CURRENCY_NAMES s)
  else dflt.

(** [int(v)] on an attribute value. *)
Definition int_of_attr `{PyRuntime} (v : attr_value) : exc Z :=
  match v with
  | AInt z => Return z
  | AStr s => int_of_text s
  | AList _ | ADict _ => Raise TypeError
  end.

(** ** app/services/exchange_rate.py *)

(** The module's globals: [settings = Settings()] and [CACHE_TTL].  The
    functions further down call [Settings()] again; the environment is taken
    not to change while the process runs, so they see the same value. *)
Record service_module : Type := {
  settings : Settings;
  CACHE_TTL : Z
}.

(** The module-level statements, run once at import:
    [CACHE_TTL = int(getattr(settings, "CACHE_TTL_MINUTES", 10)) * 60]. *)
Definition import_module `{PyRuntime} (env : environ) : exc service_module :=
  s ← Settings_init env;
  minutes ← int_of_attr (Settings_getattr s "CACHE_TTL_MINUTES" (AInt 10));
  mret {| settings := s; CACHE_TTL := (minutes * 60)%Z |}.

(** *** The fetched document

    What the parser reads off the [BeautifulSoup] tree: the [table] tags in
    document order, for each its [bgcolor] attribute and its [tr] tags, and
    for each row the texts of its [th] and of its [td] tags. *)
Record html_row : Type := {
  th_text : list string;
  td_text : list string
}.

Record html_table : Type := {
  bgcolor : option string;
  tr_rows : list html_row
}.

Abbreviation soup := (list html_table).

(** The dictionary the parser returns when it succeeds. *)
Record rate_data : Type := {
  currencies : gmap string float;
  last_updated : option string
}.

(** The parser's result: the empty dictionary [{}] or a [rate_data]. *)
Inductive parse_result : Type :=
| PEmpty
| PData (d : rate_data).

(** *** _parse_exchange_rate_data *)

(** [{v: k for k, v in currency_names.items()}]: a later item wins. *)
Definition reverse_currency_map (currency_names : list (string * string)) : gmap string string :=
  foldl (fun m kv => <[kv.2 := kv.1]> m) ∅ currency_names.

(** The first table whose [bgcolor] is ["#EAEAEA"]. *)
Fixpoint find_table (tables : soup) : option html_table :=
  match tables with
  | [] => None
  | t :: ts =>
      match bgcolor t with
      | Some c => if String.eqb c "#EAEAEA" then Some t else find_table ts
      | None => find_table ts
      end
  end.

(** [headers.index(name) if name in headers else -1] *)
Definition column_index (name : string) (headers : list string) : Z :=
  match list_index name headers with
  | Some i => Z.of_nat i
  | None => (-1)%Z
  end.

(** [cells[i].text.strip()], used only where the code has checked
    [len(cells) > i]. *)
Definition cell `{PyRuntime} (cells : list string) (i : Z) : string :=
  py_strip (default "" (cells !! Z.to_nat i)).

(** The loop state: the [currencies] dictionary and [pub_time]. *)
Abbreviation loop_state := (gmap string float * option string)%type.

(** One iteration of [for row in rows[1:]]. *)
Definition parse_row `{PyRuntime} (rmap : gmap string string)
    (currency_idx cash_selling_idx time_idx : Z)
    (st : loop_state) (row : html_row) : loop_state :=
  let cells := td_text row in
  if (Z.of_nat (length cells) <=? Z.max currency_idx cash_selling_idx)%Z then st
  else
    let currency_name := cell cells currency_idx in
    if String.eqb currency_name "" then st
    else
      let pub_time :=
        match st.2 with
        | None =>
            if (Z.of_nat (length cells) >? time_idx)%Z
            then Some (cell cells time_idx) else None
        | Some p => Some p
        end in
      let rate_text := cell cells cash_selling_idx in
      if String.eqb rate_text "" then (st.1, pub_time)
      else
        match py_float rate_text with
        | Some cash_selling_rate =>
            let by_code :=
              match rmap !! currency_name with
              | Some currency_code => <[currency_code := cash_selling_rate]> st.1
              | None => st.1
              end in
            (<[currency_name := cash_selling_rate]> by_code, pub_time)
        | None => (st.1, pub_time)
        end.

Definition _parse_exchange_rate_data `{PyRuntime} (s : Settings) (doc : soup) : parse_result :=
  let rmap := reverse_currency_map (CURRENCY_NAMES s) in
  match find_table doc with
  | None => PEmpty
  | Some table =>
      match tr_rows table with
      | [] => PEmpty
      | header :: rows =>
          let headers := py_strip <$> th_text header in
          let currency_idx := column_index "Currency Name" headers in
          let cash_selling_idx := column_index "Cash Selling Rate" headers in
          let time_idx := column_index "Pub Time" headers in
          if (currency_idx =? -1)%Z || (cash_selling_idx =? -1)%Z || (time_idx =? -1)%Z
          then PEmpty
          else
            let st := foldl (parse_row rmap currency_idx cash_selling_idx time_idx)
                            (∅, None) rows in
            PData {| currencies := st.1; last_updated := st.2 |}
      end
  end.

(** *** fetch_and_parse_rate_data *)

(** What [client.get(url)] followed by [raise_for_status()] and
    [BeautifulSoup(response.text, 'lxml')] comes to. *)
Inductive http_outcome : Type :=
| HttpTimeout
| HttpStatus (status : Z)
| HttpNetwork
| HttpOk (doc : soup).

(** The state of the network: what a GET of each URL yields. *)
Abbreviation web := (string -> http_outcome).

Definition http_get (w : web) (url : string) : exc soup :=
  match w url with
  | HttpTimeout => Raise TimeoutException
  | HttpStatus status => Raise (HTTPStatusError status)
  | HttpNetwork => Raise RequestError
  | HttpOk doc => Return doc
  end.

(** The triple the function returns: the data and two metadata fields. *)
Abbreviation fetch_value := (rate_data * option bool * option Z)%type.

(** The body of the function, without its decorator. *)
Definition fetch_and_parse_rate_data_body `{PyRuntime} (m : service_module)
    (w : web) (url : string) : exc fetch_value :=
  try_except
    (doc ← http_get w url;
     match _parse_exchange_rate_data (settings m) doc with
     | PEmpty => Raise ValueError
     | PData exchange_data => Return (exchange_data, None, None)
     end)
    (fun e =>
       match e with
       | TimeoutException => Raise (Exception TimedOut)
       | HTTPStatusError _ => Raise (Exception HttpError)
       | RequestError => Raise (Exception NetworkError)
       | _ => Raise (Exception FetchOrParseError)
       end).

(** *** The decorator [@cached(ttl=CACHE_TTL, cache=SimpleMemoryCache)]

    The memory cache keeps, for each key, the stored value and the time at
    which its timer deletes it.  The key is built from the call's arguments;
    every caller passes the URL alone. *)
Record cache_entry : Type := {
  entry_value : fetch_value;
  entry_expires : Z
}.

Abbreviation cache_state := (gmap string cache_entry).

Definition cache_get (now : Z) (c : cache_state) (key : string) : option fetch_value :=
  match c !! key with
  | Some e => if (now <? entry_expires e)%Z then Some (entry_value e) else None
  | None => None
  end.

(** The decorated call: a stored value is returned as it is; otherwise the
    function runs, and its result is stored unless it raised. *)
Definition cached (ttl : Z) (f : string -> exc fetch_value)
    (now : Z) (c : cache_state) (key : string) : exc fetch_value * cache_state :=
  match cache_get now c key with
  | Some v => (Return v, c)
  | None =>
      match f key with
      | Return v => (Return v, <[key := {| entry_value := v; entry_expires := (now + ttl)%Z |}]> c)
      | Raise e => (Raise e, c)
      end
  end.

Definition fetch_and_parse_rate_data `{PyRuntime} (m : service_module)
    (w : web) (now : Z) (c : cache_state) (url : string) : exc fetch_value * cache_state :=
  cached (CACHE_TTL m) (fetch_and_parse_rate_data_body m w) now c url.

(** *** get_exchange_rate *)

(** What the function returns: a bare [None], or a triple whose first
    component is the rate or [None]. *)
Inductive rate_result : Type :=
| RNone
| RTuple (rate : option float) (is_cached : option bool) (next_update : option Z).

(** The rate carried by a result, if any. *)
Definition result_rate (r : rate_result) : option float :=
  match r with
  | RNone => None
  | RTuple rate _ _ => rate
  end.

(** [currencies[code] if code in currencies else currencies[name] if name in
    currencies], [None] where the code logs "Could not find rate". *)
Definition lookup_rate (cur : gmap string float) (code name : string) : option float :=
  match cur !! code with
  | Some r => Some r
  | None => cur !! name
  end.

(** The statements of the [try] block that follow the fetch. *)
Definition get_exchange_rate_try (m : service_module) (fetched : fetch_value)
    (from_currency to_currency : string) : exc rate_result :=
  let '(data, is_cached, next_update) := fetched in
  if (size (currencies data) =? 0)%nat then Return RNone
  else
    let currency_names := CURRENCY_NAMES (settings m) in
    let from_currency_name := dict_get from_currency currency_names in
    let to_currency_name := dict_get to_currency currency_names in
    if negb (truthy from_currency_name) || negb (truthy to_currency_name) then Return RNone
    else
      let from_name := default "" from_currency_name in
      let to_name := default "" to_currency_name in
      if String.eqb to_currency "CNY" then
        match lookup_rate (currencies data) from_currency from_name with
        | None => Return RNone
        | Some from_rate =>
            q ← py_truediv from_rate 100;
            Return (RTuple (Some q) is_cached next_update)
        end
      else if String.eqb from_currency "CNY" then
        match lookup_rate (currencies data) to_currency to_name with
        | None => Return RNone
        | Some to_rate =>
            q ← py_truediv 100 to_rate;
            Return (RTuple (Some q) is_cached next_update)
        end
      else
        match lookup_rate (currencies data) from_currency from_name with
        | None => Return RNone
        | Some from_rate =>
            match lookup_rate (currencies data) to_currency to_name with
            | None => Return RNone
            | Some to_rate =>
                exchange_rate ← py_truediv to_rate from_rate;
                Return (RTuple (Some exchange_rate) is_cached next_update)
            end
        end.

(** The call [fetch_and_parse_rate_data(settings.BOC_URL)].  With [BOC_URL]
    unset the HTTP client rejects the [None] inside the body's [try], whose
    last handler re-raises; nothing is stored. *)
Definition fetch_configured `{PyRuntime} (m : service_module)
    (w : web) (now : Z) (c : cache_state) : exc fetch_value * cache_state :=
  match BOC_URL (settings m) with
  | Some url => fetch_and_parse_rate_data m w now c url
  | None => (Raise (Exception FetchOrParseError), c)
  end.

(** What the [except] clause returns:
    [(None, False, datetime.now() + timedelta(seconds=CACHE_TTL))]. *)
Definition failure_result (m : service_module) (now : Z) : rate_result :=
  RTuple None (Some false) (Some (now + CACHE_TTL m)%Z).

(** The result when the [try] block reaches the division [q]: the triple
    with the quotient, or what the [except] clause returns. *)
Definition after_division (m : service_module) (now : Z) (fetched : fetch_value)
    (q : exc float) : rate_result :=
  match q with
  | Return x => RTuple (Some x) fetched.1.2 fetched.2
  | Raise _ => failure_result m now
  end.

(** The whole function: any exception of the [try] block is caught. *)
Definition get_exchange_rate `{PyRuntime} (m : service_module)
    (w : web) (now : Z) (c : cache_state)
    (from_currency to_currency : string) : rate_result * cache_state :=
  let fetched := fetch_configured m w now c in
  (match fetched.1 ≫= (fun v => get_exchange_rate_try m v from_currency to_currency) with
   | Return r => r
   | Raise _ => failure_result m now
   end,
   fetched.2).

(** ** Reference definitions for the parser's properties

    Written from the description of the parser, to be compared with the
    loop above. *)

(** The entry a data row contributes: its currency name and its rate.  A row
    contributes nothing when it is too short, when its name or its rate text
    is empty, or when the rate text is not a number. *)
Definition row_entry `{PyRuntime} (currency_idx cash_selling_idx : Z)
    (row : html_row) : option (string * float) :=
  let cells := td_text row in
  if (Z.of_nat (length cells) <=? Z.max currency_idx cash_selling_idx)%Z then None
  else if String.eqb (cell cells currency_idx) "" then None
  else if String.eqb (cell cells cash_selling_idx) "" then None
  else (fun r => (cell cells currency_idx, r)) <$> py_float (cell cells cash_selling_idx).

(** Storing one entry: under the code its name is an alias of, if any, and
    under the name itself. *)
Definition store_entry (rmap : gmap string string) (cur : gmap string float)
    (e : string * float) : gmap string float :=
  <[e.1 := e.2]> (match rmap !! e.1 with
                  | Some code => <[code := e.2]> cur
                  | None => cur
                  end).

(** The keys under which an entry is stored. *)
Definition entry_keys (rmap : gmap string string) (e : string * float) : list string :=
  match rmap !! e.1 with
  | Some code => [code; e.1]
  | None => [e.1]
  end.

(** The rates of a table: the entries of its rows, stored in row order. *)
Definition parsed_rates `{PyRuntime} (rmap : gmap string string)
    (currency_idx cash_selling_idx : Z) (rows : list html_row) : gmap string float :=
  foldl (store_entry rmap) ∅ (omap (row_entry currency_idx cash_selling_idx) rows).

(** The publication time a data row offers: that of a row that has enough
    cells for the name and rate columns, a name, and a cell in the
    publication-time column; the text may be empty. *)
Definition row_pub_time `{PyRuntime} (currency_idx cash_selling_idx time_idx : Z)
    (row : html_row) : option string :=
  let cells := td_text row in
  if (Z.of_nat (length cells) <=? Z.max currency_idx cash_selling_idx)%Z then None
  else if String.eqb (cell cells currency_idx) "" then None
  else if (Z.of_nat (length cells) >? time_idx)%Z then Some (cell cells time_idx)
  else None.

(** The first publication time offered by the rows. *)
Definition first_pub_time `{PyRuntime} (currency_idx cash_selling_idx time_idx : Z)
    (rows : list html_row) : option string :=
  head (omap (row_pub_time currency_idx cash_selling_idx time_idx) rows).

(** The first non-empty text found in the publication-time column. *)
Definition first_nonempty_pub_time `{PyRuntime} (time_idx : Z)
    (rows : list html_row) : option string :=
  head (filter (fun t => t <> "") ((fun row => cell (td_text row) time_idx) <$> rows)).

(** The calculator's lookup, as described: the table under the currency
    code, else under the display name configured for the code. *)
Definition resolve (currency_names : list (string * string)) (cur : gmap string float)
    (code : string) : option float :=
  match cur !! code with
  | Some r => Some r
  | None => dict_get code currency_names ≫= (fun name => cur !! name)
  end.

(** A float that is neither zero, nor infinite, nor a NaN. *)
Definition finite_nonzero (x : float) : bool :=
  match Prim2SF x with
  | S754_finite _ _ _ => true
  | _ => false
  end.

(** ** A concrete runtime, for the worked examples

    ASCII white space for [strip]; plain signed decimal numerals for [int]
    and [float].  On those inputs they agree with the interpreter; other
    inputs do not occur in the examples. *)

Definition is_space (c : ascii) : bool :=
  let n := nat_of_ascii c in
  (n =? 32)%nat || ((9 <=? n)%nat && (n <=? 13)%nat) || ((28 <=? n)%nat && (n <=? 31)%nat).

Fixpoint lstrip (s : string) : string :=
  match s with
  | EmptyString => ""
  | String c s' => if is_space c then lstrip s' else s
  end.

Fixpoint rstrip (s : string) : string :=
  match s with
  | EmptyString => ""
  | String c s' =>
      match rstrip s' with
      | EmptyString => if is_space c then "" else String c ""
      | r => String c r
      end
  end.

Definition ascii_strip (s : string) : string := rstrip (lstrip s).

(** The value of a non-empty string of decimal digits. *)
Fixpoint digits_value (acc : Z) (s : string) : option Z :=
  match s with
  | EmptyString => Some acc
  | String c s' =>
      let n := Z.of_nat (nat_of_ascii c) in
      if (48 <=? n)%Z && (n <=? 57)%Z then digits_value (10 * acc + (n - 48))%Z s' else None
  end.

Definition natural (s : string) : option Z :=
  match s with
  | EmptyString => None
  | _ => digits_value 0 s
  end.

(** Splits off a leading sign: [true] for a minus. *)
Definition signed (s : string) : bool * string :=
  match s with
  | String "-" s' => (true, s')
  | String "+" s' => (false, s')
  | _ => (false, s)
  end.

Definition decimal_int (s : string) : option Z :=
  let '(neg, body) := signed (ascii_strip s) in
  (fun n => if neg then (- n)%Z else n) <$> natural body.

(** [digits] or [digits.digits], at most 15 digits in all: the quotient of
    two integers that binary64 holds exactly, hence correctly rounded. *)
Definition decimal (body : string) : option float :=
  let '(whole, frac) := default (body, "") (split_once "." body) in
  n ← natural (whole ++ frac);
  if (15 <? String.length (whole ++ frac))%nat then None
  else if String.eqb whole "" then None
  else Some (PrimFloat.div
               (PrimFloat.of_uint63 (Uint63.of_Z n))
               (PrimFloat.of_uint63 (Uint63.of_Z (10 ^ Z.of_nat (String.length frac))))).

(** A signed decimal numeral, or one of the words [inf] and [nan]. *)
Definition decimal_float (s : string) : option float :=
  let '(neg, body) := signed (ascii_strip s) in
  (fun q => if neg then PrimFloat.opp q else q) <$>
    (if String.eqb body "inf" then Some infinity
     else if String.eqb body "nan" then Some nan
     else decimal body).

Definition ascii_runtime : PyRuntime :=
  {| py_strip := ascii_strip; py_float := decimal_float; py_int := decimal_int |}.

(** ** Sample configuration and documents *)

Definition sample_url : string := "https://www.boc.cn/sourcedb/whpj/enindex_1619.html".

Definition sample_env : environ :=
  <["APP_PORT" := "8000"]>
    (<["BOC_URL" := sample_url]>
       (<["SUPPORTED_CURRENCIES" := "USD,EUR,JPY,CNY"]>
          (<["CURRENCY_NAMES" := "USD:美元,EUR:欧元,JPY:日元,CNY:人民币"]> ∅))).

Definition sample_settings : Settings :=
  {| APP_PORT := 8000;
     APP_WORKERS := 4;
     CACHE_TIMEOUT := 5;
     BOC_URL := Some sample_url;
     SUPPORTED_CURRENCIES := ["USD"; "EUR"; "JPY"; "CNY"];
     CURRENCY_NAMES := [("USD", "美元"); ("EUR", "欧元"); ("JPY", "日元"); ("CNY", "人民币")] |}.

Definition sample_module : service_module :=
  {| settings := sample_settings; CACHE_TTL := 600 |}.

Definition header_row (columns : list string) : html_row :=
  {| th_text := columns; td_text := [] |}.

Definition data_row (cells : list string) : html_row :=
  {| th_text := []; td_text := cells |}.

(** A page: a layout table, then the rate table with the given rows. *)
Definition page (rows : list html_row) : soup :=
  [ {| bgcolor := None; tr_rows := [data_row ["Bank of China"]] |};
    {| bgcolor := Some "#EAEAEA"; tr_rows := rows |} ].

Definition rate_header : html_row :=
  header_row ["Currency Name"; "Buying Rate"; "Cash Selling Rate"; "Pub Time"].

(** The web serving one page at the sample URL. *)
Definition serving (doc : soup) : web :=
  fun url => if String.eqb url sample_url then HttpOk doc else HttpNetwork.

Definition usd_page : soup :=
  page [rate_header;
        data_row ["美元"; "717.25"; "727.67"; "2025.05.02 20:58:58"];
        data_row ["欧元"; "810.12"; "824.88"; "2025.05.02 20:58:58"]].

Definition usd_data : rate_data :=
  {| currencies :=
       list_to_map [("USD", 727.67%float); ("美元", 727.67%float);
                    ("EUR", 824.88%float); ("欧元", 824.88%float)];
     last_updated := Some "2025.05.02 20:58:58" |}.

(** The cache once [usd_page] has been fetched at time 1000. *)
Definition usd_cache : cache_state :=
  {[ sample_url := {| entry_value := (usd_data, None, None); entry_expires := 1600 |} ]}.

(** A page with the row of the euro alone: USD and JPY, both named in the
    sample configuration, have no row. *)
Definition eur_page : soup :=
  page [rate_header;
        data_row ["欧元"; "810.12"; "824.88"; "2025.05.02 20:58:58"]].

Definition eur_data : rate_data :=
  {| currencies := list_to_map [("EUR", 824.88%float); ("欧元", 824.88%float)];
     last_updated := Some "2025.05.02 20:58:58" |}.

(** A page from a source gone wrong: a zero, an infinite and a negative
    rate, a row for the base currency, and a currency that the
    configuration does not name. *)
Definition odd_page : soup :=
  page [rate_header;
        data_row ["美元"; "717.25"; "0.00"; "2025.05.02 20:58:58"];
        data_row ["欧元"; "810.12"; "inf"; "2025.05.02 20:58:58"];
        data_row ["日元"; "4.9"; "-5"; "2025.05.02 20:58:58"];
        data_row ["人民币"; "100"; "50"; "2025.05.02 20:58:58"];
        data_row ["HKD"; "91.8"; "92.5"; "2025.05.02 20:58:58"]].

Definition odd_data : rate_data :=
  {| currencies :=
       list_to_map [("USD", 0%float); ("美元", 0%float);
                    ("EUR", infinity); ("欧元", infinity);
                    ("JPY", (-5)%float); ("日元", (-5)%float);
                    ("CNY", 50%float); ("人民币", 50%float);
                    ("HKD", 92.5%float)];
     last_updated := Some "2025.05.02 20:58:58" |}.

Definition odd_cache : cache_state :=
  {[ sample_url := {| entry_value := (odd_data, None, None); entry_expires := 1600 |} ]}.

(** The publication time of a parse result. *)
Definition published_at (r : parse_result) : option string :=
  match r with
  | PEmpty => None
  | PData d => last_updated d
  end.

(** A cache all of whose stored triples carry [None] in both metadata
    fields. *)
Definition no_metadata (c : cache_state) : Prop :=
  forall key e, c !! key = Some e ->
    (entry_value e).1.2 = None /\ (entry_value e).2 = None.




(** Two healthy rows, the first with an empty publication-time cell. *)
Definition blank_time_rows : list html_row :=
  [data_row ["美元"; "717.25"; "727.67"; ""];
   data_row ["欧元"; "810.12"; "824.88"; "2025.05.02 20:58:58"]].

Definition blank_time_page : soup := page (rate_header :: blank_time_rows).



(** The sample environment with a cache timeout of zero minutes. *)
Definition zero_timeout_env : environ := <["CACHE_TIMEOUT" := "0"]> sample_env.

(** ** The cache over a run of the process *)

(** The caches the decorated function can leave behind: the empty one, and
    what a call leaves from one of them, whatever the network, the time and
    the URL. *)
Inductive reachable `{PyRuntime} (m : service_module) : cache_state -> Prop :=
| reachable_empty : reachable m ∅
| reachable_fetch c w now url :
    reachable m c ->
    reachable m (fetch_and_parse_rate_data m w now c url).2.

(** ** app/utils/error_handler.py *)

(** What [validate_amount] does: return the amount, or raise
    [InvalidAmountError(amount_str)]. *)
Inductive amount_result : Type :=
| ValidAmount (amount : float)
| InvalidAmountError (amount_str : string).

(** [validate_amount]: the [InvalidAmountError] raised inside the [try] is
    not a [ValueError] and leaves the function as it is. *)
Definition validate_amount `{PyRuntime} (amount_str : string) : amount_result :=
  match py_float amount_str with
  | Some amount =>
      if PrimFloat.leb amount 0 then InvalidAmountError amount_str
      else ValidAmount amount
  | None => InvalidAmountError amount_str
  end.

(** ** app/bot/handlers.py *)

(** Two more built-ins of the interpreter: [str.split()] without argument
    and [str.upper()]. *)
Class PyStr : Type := {
  py_split : string -> list string;
  py_upper : string -> string
}.

(** What a handler's [try] block can raise besides the service's own
    exceptions. *)
Inductive handler_exn : Type :=
| UnpackNone    (* TypeError: cannot unpack non-iterable NoneType object *)
| NoStrftime    (* AttributeError: 'NoneType' object has no attribute 'strftime' *)
| Raised (e : exn).

(** The messages the handlers send, one constructor for each call of
    [send_message], with the values its text is formatted from. *)
Inductive reply : Type :=
| ConvertUsage
| UseCnyConvert (from_currency : string) (amount : float)
| Converted (amount : float) (from_currency : string)
    (converted_amount : float) (to_currency : string) (rate : float)
    (last_updated : option string) (from_cache : bool) (next_update : Z)
| CannotConvert (from_currency to_currency : string)
| CnyConvertUsage
| ConvertedToCny (amount : float) (from_currency : string)
    (converted_amount : float) (rate : float)
    (last_updated : option string) (from_cache : bool) (next_update : Z)
| CannotConvertToCny (from_currency : string)
| InvalidAmount
| ErrorOccurred (e : handler_exn)
| NoRateData
| RateList (last_updated : option string) (from_cache : bool) (next_update : Z)
    (lines : list (string * float * string))
| RateError (e : handler_exn)
| CurrencyList (currencies : list (string * string))
    (last_updated : option string) (from_cache : bool) (next_update : Z).



(** [bool(is_cached)] *)
Definition flag_truthy (is_cached : option bool) : bool := default false is_cached.




(** The lines of [rate_command]: for each supported currency other than
    CNY that the table holds under its code, the upper-cased code, the rate
    and the display name ([""] when there is none). *)
Definition rate_lines `{PyStr} (s : Settings) (cur : gmap string float)
    : list (string * float * string) :=
  omap (fun currency_code =>
          if String.eqb currency_code "CNY" then None
          else
            let chinese_name := default "" (dict_get currency_code (CURRENCY_NAMES s)) in
            (fun rate => (py_upper currency_code, rate, chinese_name)) <$> cur !! currency_code)
       (SUPPORTED_CURRENCIES s).

(** [rate_command] *)
Definition rate_command `{PyRuntime} `{PyStr} (m : service_module)
    (w : web) (now : Z) (c : cache_state) : reply * cache_state :=
  let fetched := fetch_configured m w now c in
  match fetched.1 with
  | Raise e => (RateError (Raised e), fetched.2)
  | Return (data, is_cached, next_update) =>
      if (size (currencies data) =? 0)%nat then (NoRateData, fetched.2)
      else
        match next_update with
        | None => (RateError NoStrftime, fetched.2)
        | Some next_update_time =>
            (RateList (last_updated data) (flag_truthy is_cached) next_update_time
               (rate_lines (settings m) (currencies data)),
             fetched.2)
        end
  end.

(** [currency_command] has no [try]: it sends its list or raises. *)
Definition currency_command `{PyRuntime} (m : service_module)
    (w : web) (now : Z) (c : cache_state) : (handler_exn + reply) * cache_state :=
  let currencies :=
    (fun code => (code, default "" (dict_get code (CURRENCY_NAMES (settings m)))))
      <$> SUPPORTED_CURRENCIES (settings m) in
  let fetched := fetch_configured m w now c in
  match fetched.1 with
  | Raise e => (inl (Raised e), fetched.2)
  | Return (data, is_cached, next_update) =>
      match next_update with
      | None => (inl NoStrftime, fetched.2)
      | Some next_update_time =>
          (inr (CurrencyList currencies (last_updated data)
                  (flag_truthy is_cached) next_update_time),
           fetched.2)
      end
  end.

(** ** app/utils/redact.py *)

(** The values [json.loads] builds; a [dict] keeps its keys in insertion
    order. *)
#[warnings="-register-all"]
Inductive json : Type :=
| JNull
| JBool (b : bool)
| JInt (z : Z)
| JFloat (f : float)
| JStr (s : string)
| JList (items : list json)
| JDict (fields : list (string * json)).

(** [bool(x)] *)
Definition json_truthy (x : json) : bool :=
  match x with
  | JNull => false
  | JBool b => b
  | JInt z => negb (z =? 0)%Z
  | JFloat f => negb (PrimFloat.eqb f 0)
  | JStr s => negb (String.eqb s "")
  | JList items => match items with [] => false | _ => true end
  | JDict fields => match fields with [] => false | _ => true end
  end.

Fixpoint is_prefix (p s : string) : bool :=
  match p, s with
  | EmptyString, _ => true
  | String a p', String b s' => Ascii.eqb a b && is_prefix p' s'
  | String _ _, EmptyString => false
  end.

(** [p in s] on strings. *)
Fixpoint is_infix (p s : string) : bool :=
  is_prefix p s ||
  match s with
  | EmptyString => false
  | String _ s' => is_infix p s'
  end.

(** The three operations below return [None] where Python raises (a
    [TypeError] on a value that does not support the operation, a
    [KeyError] on a missing key). *)

(** [key in x] for a string [key]: a key of a dict, a substring of a
    string, an element of a list. *)
Definition json_in (key : string) (x : json) : option bool :=
  match x with
  | JDict fields => Some (match dict_get key fields with Some _ => true | None => false end)
  | JStr s => Some (is_infix key s)
  | JList items =>
      Some (existsb (fun y => match y with JStr s => String.eqb s key | _ => false end) items)
  | _ => None
  end.

(** [x[key]] for a string [key]. *)
Definition json_get (key : string) (x : json) : option json :=
  match x with
  | JDict fields => dict_get key fields
  | _ => None
  end.

(** [x[key] = v] for a string [key]. *)
Definition json_set (key : string) (v : json) (x : json) : option json :=
  match x with
  | JDict fields => Some (JDict (dict_set key v fields))
  | _ => None
  end.

(** [x[k1][k2]...] *)
Definition json_path (path : list string) (x : json) : option json :=
  foldl (fun acc key => acc ≫= json_get key) (Some x) path.

(** The two guarded assignments on a user or chat object. *)
Definition redact_names (id_mark : string) (u : json) : option json :=
  has_name ← json_in "first_name" u;
  u1 ← (if has_name : bool then json_set "first_name" (JStr "[REDACTED]") u else Some u);
  has_id ← json_in "id" u1;
  if has_id : bool then json_set "id" (JStr id_mark) u1 else Some u1.

(** [if field in message and message[field]: ...] *)
Definition redact_field (field id_mark : string) (message : json) : option json :=
  present ← json_in field message;
  if present : bool then
    u ← json_get field message;
    if json_truthy u then
      u' ← redact_names id_mark u;
      json_set field u' message
    else Some message
  else Some message.

(** [sanitize_user_data], given [settings.REDACT_USER_DATA].  The deep copy
    makes the function pure: the argument is left as it was. *)
Definition sanitize_user_data (redact : bool) (update_data : json) : option json :=
  if negb redact then Some update_data
  else
    match update_data with
    | JDict fields =>
        match dict_get "message" fields with
        | Some message =>
            if json_truthy message then
              m1 ← redact_field "from_user" "[REDACTED_ID]" message;
              m2 ← redact_field "from" "[REDACTED_ID]" m1;
              m3 ← redact_field "chat" "[REDACTED_CHAT_ID]" m2;
              Some (JDict (dict_set "message" m3 fields))
            else Some update_data
        | None => Some update_data
        end
    | _ => Some update_data
    end.

(** [if k in d: d[k] = v] *)
Definition dict_replace {V} (k : string) (v : V) (d : list (string * V)) : list (string * V) :=
  match dict_get k d with
  | Some _ => dict_set k v d
  | None => d
  end.

(** A user or chat field on which the two assignments change nothing. *)
Definition settled (field id_mark : string) (message : json) : Prop :=
  forall u, json_get field message = Some u -> json_truthy u = true ->
    redact_names id_mark u = Some u.

(** An object, or nothing: what a user or chat field of an update holds. *)
Definition object_or_absent (x : option json) : Prop :=
  match x with
  | None | Some JNull | Some (JDict _) => True
  | _ => False
  end.

(** An update as Telegram sends it: an object whose [message], if any, is
    an object whose [from_user], [from] and [chat], if any, are objects. *)
Definition update_shaped (x : json) : Prop :=
  match x with
  | JDict fields =>
      match dict_get "message" fields with
      | None | Some JNull => True
      | Some (JDict message) =>
          object_or_absent (dict_get "from_user" message) /\
          object_or_absent (dict_get "from" message) /\
          object_or_absent (dict_get "chat" message)
      | _ => False
      end
  | _ => False
  end.

(** ** A concrete [PyStr], for the worked examples *)

Fixpoint split_words (s word : string) : list string :=
  match s with
  | EmptyString => if String.eqb word "" then [] else [word]
  | String c s' =>
      if is_space c then
        if String.eqb word "" then split_words s' "" else word :: split_words s' ""
      else split_words s' (word ++ String c "")
  end.

Definition ascii_upper_char (c : ascii) : ascii :=
  let n := nat_of_ascii c in
  if (97 <=? n)%nat && (n <=? 122)%nat then ascii_of_nat (n - 32) else c.

Fixpoint ascii_upper (s : string) : string :=
  match s with
  | EmptyString => ""
  | String c s' => String (ascii_upper_char c) (ascii_upper s')
  end.

Definition ascii_str : PyStr :=
  {| py_split := fun s => split_words s ""; py_upper := ascii_upper |}.

(** A Telegram update with a private message. *)
Definition sample_update : json :=
  JDict [("update_id", JInt 10000);
         ("message",
          JDict [("message_id", JInt 1365);
                 ("from_user",
                  JDict [("id", JInt 1111111); ("is_bot", JBool false);
                         ("first_name", JStr "Alice"); ("last_name", JStr "Liddell");
                         ("username", JStr "alice")]);
                 ("chat",
                  JDict [("id", JInt 1111111); ("first_name", JStr "Alice");
                         ("last_name", JStr "Liddell"); ("type", JStr "private")]);
                 ("text", JStr "/cny_convert usd 100")])].

(** The sample update once sanitized. *)
Definition sanitized_sample_update : json :=
  JDict [("update_id", JInt 10000);
         ("message",
          JDict [("message_id", JInt 1365);
                 ("from_user",
                  JDict [("id", JStr "[REDACTED_ID]"); ("is_bot", JBool false);
                         ("first_name", JStr "[REDACTED]"); ("last_name", JStr "Liddell");
                         ("username", JStr "alice")]);
                 ("chat",
                  JDict [("id", JStr "[REDACTED_CHAT_ID]"); ("first_name", JStr "[REDACTED]");
                         ("last_name", JStr "Liddell"); ("type", JStr "private")]);
                 ("text", JStr "/cny_convert usd 100")])].

(** * Properties *)

(** ** Floating-point division *)

Section FloatDivision.
Local Open Scope Z_scope.

Lemma div_eucl_shift (m : positive) :
  Z.div_eucl (Z.shiftl (Z.pos m) 53) (Z.pos m) = (9007199254740992, 0).
Proof.
  rewrite Z.shiftl_mul_pow2 by lia.
  change (2 ^ 53) with 9007199254740992.
  pose proof (Z.div_eucl_eq (Z.pos m * 9007199254740992) (Z.pos m)) as Heq.
  pose proof (Z.mod_pos_bound (Z.pos m * 9007199254740992) (Z.pos m)) as Hb.
  unfold Z.modulo in Hb.
  destruct (Z.div_eucl (Z.pos m * 9007199254740992) (Z.pos m)) as [q r].
  assert (Hr : 0 <= r < Z.pos m) by (apply Hb; lia).
  assert (Hq : Z.pos m * 9007199254740992 = Z.pos m * q + r) by (apply Heq; lia).
  assert (q = 9007199254740992) by nia.
  subst q. f_equal. lia.
Qed.

(** A finite non-zero number divided by itself: the quotient of the
    mantissas is exactly [2^53], which rounds to one. *)
Lemma SFdiv_self s m e :
  SFdiv prec emax (S754_finite s m e) (S754_finite s m e) = Prim2SF 1.
Proof.
  unfold SFdiv, SFdiv_core_binary.
  replace (Zdigits2 (Z.pos m) + e - (Zdigits2 (Z.pos m) + e)) with 0 by lia.
  replace (e - e) with 0 by lia.
  change (Z.min (fexp prec emax 0) 0) with (-53).
  change (0 - -53) with 53.
  cbv zeta.
  change IntDef.Z.div_eucl with Z.div_eucl.
  cbv iota. rewrite div_eucl_shift, xorb_nilpotent.
  replace (new_location (Z.pos m) 0) with loc_Exact
    by (unfold new_location; destruct (IntDef.Z.even (Z.pos m)); reflexivity).
  vm_compute. reflexivity.
Qed.

Lemma div_self (x : float) :
  finite_nonzero x = true -> PrimFloat.div x x = 1%float.
Proof.
  unfold finite_nonzero. intros Hx.
  apply Prim2SF_inj. rewrite div_spec.
  destruct (Prim2SF x) as [| | |s m e]; try discriminate.
  apply SFdiv_self.
Qed.

Lemma finite_nonzero_not_zero (x : float) :
  finite_nonzero x = true -> PrimFloat.eqb x 0 = false.
Proof.
  unfold finite_nonzero. intros Hx.
  rewrite FloatAxioms.eqb_spec.
  destruct (Prim2SF x) as [| | |s m e]; try discriminate.
  destruct s; reflexivity.
Qed.

Lemma py_truediv_self (x : float) :
  finite_nonzero x = true -> py_truediv x x = Return 1%float.
Proof.
  intros Hx. unfold py_truediv.
  rewrite (finite_nonzero_not_zero x Hx), (div_self x Hx). reflexivity.
Qed.

Lemma py_truediv_100 (x : float) :
  py_truediv x 100 = Return (PrimFloat.div x 100).
Proof. reflexivity. Qed.

Lemma py_truediv_zero (x y : float) :
  PrimFloat.eqb y 0 = true -> py_truediv x y = Raise ZeroDivisionError.
Proof. intros Hy. unfold py_truediv. rewrite Hy. reflexivity. Qed.
End FloatDivision.

(** ** The calculator *)

Section Calculator.
Context `{rt : PyRuntime}.
Implicit Types (m : service_module) (w : web) (now : Z) (c : cache_state).
Implicit Types (v : fetch_value) (cur : gmap string float).

Lemma get_exchange_rate_fetched m w now c v c' from to :
  fetch_configured m w now c = (Return v, c') ->
  (get_exchange_rate m w now c from to).1 =
    match get_exchange_rate_try m v from to with
    | Return r => r
    | Raise _ => failure_result m now
    end.
Proof. intros Hf. unfold get_exchange_rate. rewrite Hf. reflexivity. Qed.

Lemma get_exchange_rate_unfetched m w now c e c' from to :
  fetch_configured m w now c = (Raise e, c') ->
  (get_exchange_rate m w now c from to).1 = failure_result m now.
Proof. intros Hf. unfold get_exchange_rate. rewrite Hf. reflexivity. Qed.

Lemma size_lookup_Some cur k r :
  cur !! k = Some r -> (size cur =? 0)%nat = false.
Proof.
  intros Hk. apply Nat.eqb_neq. intros Hs.
  apply map_size_empty_iff in Hs. subst cur.
  rewrite lookup_empty in Hk. discriminate.
Qed.

Lemma resolve_nonempty names cur code r :
  resolve names cur code = Some r -> (size cur =? 0)%nat = false.
Proof.
  unfold resolve. destruct (cur !! code) as [r'|] eqn:Hc.
  - intros _. exact (size_lookup_Some _ _ _ Hc).
  - destruct (dict_get code names) as [name|]; simpl; [|discriminate].
    apply size_lookup_Some.
Qed.

Lemma lookup_rate_resolve names cur code name :
  dict_get code names = Some name ->
  lookup_rate cur code name = resolve names cur code.
Proof. intros Hn. unfold lookup_rate, resolve. rewrite Hn. reflexivity. Qed.

Lemma truthy_Some name : name <> "" -> truthy (Some name) = true.
Proof. destruct name; [congruence | reflexivity]. Qed.

Lemma truthy_inv o : truthy o = true -> exists name, o = Some name /\ name <> "".
Proof.
  destruct o as [[|a s]|]; simpl; try discriminate.
  intros _. exists (String a s). split; [reflexivity | discriminate].
Qed.

(** An empty table: "No currency data available". *)
Lemma try_empty m v from to :
  (size (currencies v.1.1) =? 0)%nat = true ->
  get_exchange_rate_try m v from to = Return RNone.
Proof.
  destruct v as [[data ic] nu]; simpl. intros Hs.
  unfold get_exchange_rate_try. rewrite Hs. reflexivity.
Qed.

(** A currency without a display name: "Missing Chinese name mapping". *)
Lemma try_unnamed m v from to :
  truthy (dict_get from (CURRENCY_NAMES (settings m))) = false \/
  truthy (dict_get to (CURRENCY_NAMES (settings m))) = false ->
  get_exchange_rate_try m v from to = Return RNone.
Proof.
  destruct v as [[data ic] nu]. intros Hn.
  unfold get_exchange_rate_try.
  destruct (size (currencies data) =? 0)%nat; [reflexivity|].
  destruct Hn as [-> | ->]; simpl; [reflexivity|].
  rewrite orb_true_r. reflexivity.
Qed.

(** Both currencies named and the table not empty: the three formulas. *)
Lemma try_named m v from to from_name to_name :
  let names := CURRENCY_NAMES (settings m) in
  let cur := currencies v.1.1 in
  (size cur =? 0)%nat = false ->
  dict_get from names = Some from_name -> from_name <> "" ->
  dict_get to names = Some to_name -> to_name <> "" ->
  get_exchange_rate_try m v from to =
    if String.eqb to "CNY" then
      match resolve names cur from with
      | None => Return RNone
      | Some from_rate =>
          q ← py_truediv from_rate 100; Return (RTuple (Some q) v.1.2 v.2)
      end
    else if String.eqb from "CNY" then
      match resolve names cur to with
      | None => Return RNone
      | Some to_rate =>
          q ← py_truediv 100 to_rate; Return (RTuple (Some q) v.1.2 v.2)
      end
    else
      match resolve names cur from with
      | None => Return RNone
      | Some from_rate =>
          match resolve names cur to with
          | None => Return RNone
          | Some to_rate =>
              q ← py_truediv to_rate from_rate; Return (RTuple (Some q) v.1.2 v.2)
          end
      end.
Proof.
  destruct v as [[data ic] nu]. simpl.
  intros Hs Hf Hfn Ht Htn.
  unfold get_exchange_rate_try.
  rewrite Hs, Hf, Ht, (truthy_Some _ Hfn), (truthy_Some _ Htn). simpl.
  rewrite (lookup_rate_resolve _ _ _ _ Hf), (lookup_rate_resolve _ _ _ _ Ht).
  reflexivity.
Qed.

(** C1, as the code has it. For every table the cache hands out and every
    pair of currencies that both have a configured display name: towards
    CNY the result is the source rate divided by 100; from CNY it is 100
    divided by the target rate; between two other currencies it is the
    target rate divided by the source rate.  The divisions are Python's:
    a zero divisor raises, and the function then returns what its
    [except] clause does. *)
Theorem get_exchange_rate_formula m w now c from to v c' from_name to_name :
  fetch_configured m w now c = (Return v, c') ->
  dict_get from (CURRENCY_NAMES (settings m)) = Some from_name -> from_name <> "" ->
  dict_get to (CURRENCY_NAMES (settings m)) = Some to_name -> to_name <> "" ->
  let lookup := resolve (CURRENCY_NAMES (settings m)) (currencies v.1.1) in
  let result := (get_exchange_rate m w now c from to).1 in
  (to = "CNY" -> forall r, lookup from = Some r ->
     result = RTuple (Some (PrimFloat.div r 100)) v.1.2 v.2) /\
  (to <> "CNY" -> from = "CNY" -> forall r, lookup to = Some r ->
     result = after_division m now v (py_truediv 100 r)) /\
  (to <> "CNY" -> from <> "CNY" -> forall from_rate to_rate,
     lookup from = Some from_rate -> lookup to = Some to_rate ->
     result = after_division m now v (py_truediv to_rate from_rate)).
Proof.
  intros Hfetch Hf Hfn Ht Htn lookup result.
  subst result. rewrite (get_exchange_rate_fetched _ _ _ _ _ _ _ _ Hfetch).
  assert (Hstep : forall r code, lookup code = Some r ->
            get_exchange_rate_try m v from to = _) by
    (intros r code Hr; apply (try_named m v from to from_name to_name);
     [exact (resolve_nonempty _ _ _ _ Hr) | assumption..]).
  subst lookup. repeat split.
  - intros -> r Hr. rewrite (Hstep _ _ Hr). simpl. rewrite Hr. reflexivity.
  - intros Hto -> r Hr. rewrite (Hstep _ _ Hr).
    apply String.eqb_neq in Hto. rewrite Hto. simpl. rewrite Hr.
    unfold after_division. destruct (py_truediv 100 r); reflexivity.
  - intros Hto Hfrom rf rt' Hrf Hrt. rewrite (Hstep _ _ Hrf).
    apply String.eqb_neq in Hto, Hfrom. rewrite Hto, Hfrom, Hrf, Hrt.
    unfold after_division. destruct (py_truediv rt' rf); reflexivity.
Qed.

(** The [try] block returns a bare [None] as soon as a lookup that the
    applicable formula makes finds nothing. *)
Lemma try_unresolved m v from to :
  let unresolved code :=
    resolve (CURRENCY_NAMES (settings m)) (currencies v.1.1) code = None in
  (to = "CNY" /\ unresolved from) \/
  (to <> "CNY" /\ from = "CNY" /\ unresolved to) \/
  (to <> "CNY" /\ from <> "CNY" /\ (unresolved from \/ unresolved to)) ->
  get_exchange_rate_try m v from to = Return RNone.
Proof.
  intros unresolved Hcase. subst unresolved. simpl in Hcase.
  destruct (size (currencies v.1.1) =? 0)%nat eqn:Hs;
    [exact (try_empty m v from to Hs)|].
  destruct (truthy (dict_get from (CURRENCY_NAMES (settings m)))) eqn:Hf;
    [|apply try_unnamed; left; exact Hf].
  destruct (truthy (dict_get to (CURRENCY_NAMES (settings m)))) eqn:Ht;
    [|apply try_unnamed; right; exact Ht].
  apply truthy_inv in Hf as (fn & Hf & Hfn), Ht as (tn & Ht & Htn).
  rewrite (try_named m v from to fn tn Hs Hf Hfn Ht Htn).
  destruct Hcase as [[-> Hu] | [(Hto & -> & Hu) | (Hto & Hfrom & Hu)]].
  - simpl. rewrite Hu. reflexivity.
  - apply String.eqb_neq in Hto. rewrite Hto. simpl. rewrite Hu. reflexivity.
  - apply String.eqb_neq in Hto, Hfrom. rewrite Hto, Hfrom.
    destruct Hu as [Hu | Hu]; rewrite Hu; [reflexivity|].
    destruct (resolve _ _ from); reflexivity.
Qed.

(** C4, as the code has it. Whenever a currency that the applicable formula
    looks up (the source towards CNY, the target from CNY, both otherwise)
    resolves neither by its code nor by its configured display name, the
    function returns a bare [None]: no rate, and no default in its place. *)
Theorem unresolved_rate_is_None m w now c from to v c' :
  fetch_configured m w now c = (Return v, c') ->
  let unresolved code :=
    resolve (CURRENCY_NAMES (settings m)) (currencies v.1.1) code = None in
  (to = "CNY" /\ unresolved from) \/
  (to <> "CNY" /\ from = "CNY" /\ unresolved to) \/
  (to <> "CNY" /\ from <> "CNY" /\ (unresolved from \/ unresolved to)) ->
  (get_exchange_rate m w now c from to).1 = RNone.
Proof.
  intros Hfetch unresolved Hcase.
  rewrite (get_exchange_rate_fetched _ _ _ _ _ _ _ _ Hfetch).
  rewrite (try_unresolved m v from to Hcase). reflexivity.
Qed.

(** C6, as the code has it. When the rate that the formula divides by (the
    target's from CNY, the source's between two other currencies) compares
    equal to zero, the division raises [ZeroDivisionError], the function's
    own handler catches it, and the result is the failure triple
    [(None, False, now + CACHE_TTL)]: no rate is returned and no exception
    leaves the function. *)
Theorem zero_divisor_is_caught m w now c from to v c' from_name to_name divisor :
  fetch_configured m w now c = (Return v, c') ->
  dict_get from (CURRENCY_NAMES (settings m)) = Some from_name -> from_name <> "" ->
  dict_get to (CURRENCY_NAMES (settings m)) = Some to_name -> to_name <> "" ->
  let lookup := resolve (CURRENCY_NAMES (settings m)) (currencies v.1.1) in
  to <> "CNY" ->
  lookup (if String.eqb from "CNY" then to else from) = Some divisor ->
  is_Some (lookup to) ->
  PrimFloat.eqb divisor 0 = true ->
  (get_exchange_rate m w now c from to).1 = failure_result m now.
Proof.
  intros Hfetch Hf Hfn Ht Htn lookup Hto Hdiv [to_rate Hrt] Hzero.
  subst lookup. simpl in Hdiv, Hrt.
  rewrite (get_exchange_rate_fetched _ _ _ _ _ _ _ _ Hfetch).
  rewrite (try_named m v from to from_name to_name
             (resolve_nonempty _ _ _ _ Hrt) Hf Hfn Ht Htn).
  apply String.eqb_neq in Hto. rewrite Hto.
  destruct (String.eqb from "CNY").
  - rewrite Hdiv. simpl. rewrite (py_truediv_zero _ _ Hzero). reflexivity.
  - rewrite Hdiv, Hrt. simpl. rewrite (py_truediv_zero _ _ Hzero). reflexivity.
Qed.

(** C8, as the code has it. For every currency other than CNY that has a
    display name and resolves to a finite non-zero rate, the rate from the
    currency to itself is 1. *)
Theorem same_currency_rate_is_one m w now c X v c' name r :
  fetch_configured m w now c = (Return v, c') ->
  X <> "CNY" ->
  dict_get X (CURRENCY_NAMES (settings m)) = Some name -> name <> "" ->
  resolve (CURRENCY_NAMES (settings m)) (currencies v.1.1) X = Some r ->
  finite_nonzero r = true ->
  (get_exchange_rate m w now c X X).1 = RTuple (Some 1%float) v.1.2 v.2.
Proof.
  intros Hfetch HX Hn Hne Hr Hfin.
  rewrite (get_exchange_rate_fetched _ _ _ _ _ _ _ _ Hfetch).
  rewrite (try_named m v X X name name
             (resolve_nonempty _ _ _ _ Hr) Hn Hne Hn Hne).
  apply String.eqb_neq in HX. rewrite HX, Hr. simpl.
  rewrite (py_truediv_self r Hfin). reflexivity.
Qed.

(** Without a display name for one of the two currencies there is no rate. *)
Lemma no_rate_without_names m w now c from to :
  dict_get from (CURRENCY_NAMES (settings m)) = None \/
  dict_get to (CURRENCY_NAMES (settings m)) = None ->
  result_rate (get_exchange_rate m w now c from to).1 = None.
Proof.
  intros Hmiss.
  destruct (fetch_configured m w now c) as [[v|e] c'] eqn:Hfetch.
  - rewrite (get_exchange_rate_fetched _ _ _ _ _ _ _ _ Hfetch), try_unnamed;
      [reflexivity|].
    destruct Hmiss as [-> | ->]; [left | right]; reflexivity.
  - rewrite (get_exchange_rate_unfetched _ _ _ _ _ _ _ _ Hfetch). reflexivity.
Qed.

(** Read the other way: a result that carries a rate was computed for two
    currencies that both have a display name. *)
Corollary rate_requires_names m w now c from to r :
  result_rate (get_exchange_rate m w now c from to).1 = Some r ->
  is_Some (dict_get from (CURRENCY_NAMES (settings m))) /\
  is_Some (dict_get to (CURRENCY_NAMES (settings m))).
Proof.
  intros Hr.
  destruct (dict_get from (CURRENCY_NAMES (settings m))) as [fn|] eqn:Hf;
    [destruct (dict_get to (CURRENCY_NAMES (settings m))) as [tn|] eqn:Ht|].
  - split; eexists; reflexivity.
  - pose proof (no_rate_without_names m w now c from to (or_intror Ht)). congruence.
  - pose proof (no_rate_without_names m w now c from to (or_introl Hf)). congruence.
Qed.

(** C10. When the configured names lack the source or the target currency,
    the function returns no rate, whatever the table holds: a bare [None]
    once the table has been fetched, the failure triple when the fetch
    itself failed. *)
Theorem missing_name_is_failure m w now c from to :
  dict_get from (CURRENCY_NAMES (settings m)) = None \/
  dict_get to (CURRENCY_NAMES (settings m)) = None ->
  result_rate (get_exchange_rate m w now c from to).1 = None /\
  (forall v c', fetch_configured m w now c = (Return v, c') ->
     (get_exchange_rate m w now c from to).1 = RNone).
Proof.
  intros Hmiss. split.
  - exact (no_rate_without_names m w now c from to Hmiss).
  - intros v c' Hfetch.
    rewrite (get_exchange_rate_fetched _ _ _ _ _ _ _ _ Hfetch), try_unnamed;
      [reflexivity|].
    destruct Hmiss as [-> | ->]; [left | right]; reflexivity.
Qed.
End Calculator.

(** ** The parser *)

Section Parser.
Context `{rt : PyRuntime}.
Implicit Types (s : Settings) (doc : soup) (rows before after : list html_row).
Implicit Types (rmap : gmap string string) (st : loop_state).
Local Open Scope Z_scope.

Lemma list_index_None x l : list_index x l = None <-> x ∉ l.
Proof.
  induction l as [|y l IH]; simpl.
  - split; [intros _; apply not_elem_of_nil | reflexivity].
  - rewrite not_elem_of_cons.
    destruct (String.eqb_spec y x) as [->|Hne].
    + split; [discriminate | intros [Hx _]; congruence].
    + destruct (list_index x l); simpl.
      * split; [discriminate|]. intros [_ Hx]. apply IH in Hx. discriminate.
      * split; [|reflexivity]. intros _. split; [congruence | apply IH; reflexivity].
Qed.

Lemma column_index_found name headers :
  name ∈ headers -> (column_index name headers =? -1) = false.
Proof.
  intros Hin. unfold column_index.
  destruct (list_index name headers) as [i|] eqn:Hi.
  - apply Z.eqb_neq. lia.
  - apply list_index_None in Hi. contradiction.
Qed.

Lemma column_index_missing name headers :
  name ∉ headers -> (column_index name headers =? -1) = true.
Proof.
  intros Hout. apply list_index_None in Hout.
  unfold column_index. rewrite Hout. reflexivity.
Qed.

(** One iteration stores the row's entry, if it has one. *)
Lemma parse_row_rates rmap ci si ti st row :
  (parse_row rmap ci si ti st row).1 =
    match row_entry ci si row with
    | Some e => store_entry rmap st.1 e
    | None => st.1
    end.
Proof.
  unfold parse_row, row_entry, store_entry.
  destruct (Z.of_nat (length (td_text row)) <=? Z.max ci si); [reflexivity|].
  destruct (String.eqb (cell (td_text row) ci) ""); [reflexivity|].
  destruct (String.eqb (cell (td_text row) si) ""); [reflexivity|].
  destruct (py_float (cell (td_text row) si)); reflexivity.
Qed.

(** One iteration sets [pub_time] only while it is still [None]. *)
Lemma parse_row_time rmap ci si ti st row :
  (parse_row rmap ci si ti st row).2 =
    match st.2 with
    | Some p => Some p
    | None => row_pub_time ci si ti row
    end.
Proof.
  unfold parse_row, row_pub_time.
  destruct (Z.of_nat (length (td_text row)) <=? Z.max ci si);
    [destruct st.2; reflexivity|].
  destruct (String.eqb (cell (td_text row) ci) "");
    [destruct st.2; reflexivity|].
  destruct (String.eqb (cell (td_text row) si) "");
    [|destruct (py_float (cell (td_text row) si))]; reflexivity.
Qed.

Lemma loop_rates rmap ci si ti rows st :
  (foldl (parse_row rmap ci si ti) st rows).1 =
    foldl (store_entry rmap) st.1 (omap (row_entry ci si) rows).
Proof.
  revert st. induction rows as [|row rows IH]; intros st; simpl; [reflexivity|].
  rewrite IH, parse_row_rates.
  destruct (row_entry ci si row); reflexivity.
Qed.

Lemma loop_time rmap ci si ti rows st :
  (foldl (parse_row rmap ci si ti) st rows).2 =
    match st.2 with
    | Some p => Some p
    | None => first_pub_time ci si ti rows
    end.
Proof.
  revert st. induction rows as [|row rows IH]; intros st; simpl.
  - destruct st.2; reflexivity.
  - rewrite IH, parse_row_time. unfold first_pub_time. simpl.
    destruct st.2; [reflexivity|].
    destruct (row_pub_time ci si ti row); reflexivity.
Qed.




Lemma store_entry_other rmap cur e k :
  k ∉ entry_keys rmap e -> store_entry rmap cur e !! k = cur !! k.
Proof.
  unfold store_entry, entry_keys.
  destruct (rmap !! e.1) as [code|]; intros Hk.
  - apply not_elem_of_cons in Hk as [Hcode Hk].
    apply not_elem_of_cons in Hk as [Hname _].
    rewrite !lookup_insert_ne by congruence. reflexivity.
  - apply not_elem_of_cons in Hk as [Hname _].
    rewrite lookup_insert_ne by congruence. reflexivity.
Qed.

Lemma stored_entries_other rmap entries cur k :
  Forall (fun e => k ∉ entry_keys rmap e) entries ->
  foldl (store_entry rmap) cur entries !! k = cur !! k.
Proof.
  intros Hall. revert cur.
  induction Hall as [|e entries He _ IH]; intros cur; simpl; [reflexivity|].
  rewrite IH. exact (store_entry_other rmap cur e k He).
Qed.


(** The parser on a document whose rate table has the three columns. *)
Lemma parse_located s doc table header rows :
  find_table doc = Some table ->
  tr_rows table = header :: rows ->
  let headers := py_strip <$> th_text header in
  let ci := column_index "Currency Name" headers in
  let si := column_index "Cash Selling Rate" headers in
  let ti := column_index "Pub Time" headers in
  "Currency Name" ∈ headers -> "Cash Selling Rate" ∈ headers -> "Pub Time" ∈ headers ->
  _parse_exchange_rate_data s doc =
    PData {| currencies := parsed_rates (reverse_currency_map (CURRENCY_NAMES s)) ci si rows;
             last_updated := first_pub_time ci si ti rows |}.
Proof.
  intros Htable Hrows headers ci si ti Hc Hs Ht.
  unfold _parse_exchange_rate_data. rewrite Htable, Hrows.
  fold headers. fold ci si ti.
  unfold ci at 1, si at 1, ti at 1.
  rewrite (column_index_found _ _ Hc), (column_index_found _ _ Hs),
    (column_index_found _ _ Ht). simpl.
  rewrite loop_rates, loop_time. reflexivity.
Qed.



Lemma body_of_parse m w url doc d :
  w url = HttpOk doc ->
  _parse_exchange_rate_data (settings m) doc = PData d ->
  fetch_and_parse_rate_data_body m w url = Return (d, None, None).
Proof.
  intros Hw Hp. unfold fetch_and_parse_rate_data_body, http_get.
  rewrite Hw. simpl. rewrite Hp. reflexivity.
Qed.


(** C9, as the code has it. The table's publication time is the
    publication-time cell of the first data row that is not passed over
    (enough cells for the name and rate columns, a non-empty name) and has
    such a cell, whether that text is empty or not; the rows after it do
    not count. *)
Theorem published_time_is_first_offered s doc table header rows :
  find_table doc = Some table ->
  tr_rows table = header :: rows ->
  let headers := py_strip <$> th_text header in
  let ci := column_index "Currency Name" headers in
  let si := column_index "Cash Selling Rate" headers in
  let ti := column_index "Pub Time" headers in
  "Currency Name" ∈ headers -> "Cash Selling Rate" ∈ headers -> "Pub Time" ∈ headers ->
  (exists cur,
     _parse_exchange_rate_data s doc =
       PData {| currencies := cur; last_updated := first_pub_time ci si ti rows |}) /\
  (forall before row after t,
     rows = (before ++ row :: after)%list ->
     Forall (fun r => row_pub_time ci si ti r = None) before ->
     row_pub_time ci si ti row = Some t ->
     first_pub_time ci si ti rows = Some t).
Proof.
  intros Htable Hrows headers ci si ti Hc Hs Ht. split.
  - eexists. exact (parse_located s doc table header rows Htable Hrows Hc Hs Ht).
  - intros before row after t -> Hbefore Hrow.
    unfold first_pub_time. rewrite omap_app. simpl. rewrite Hrow.
    clear Hrows. induction Hbefore as [|r before Hr _ IH]; simpl; [reflexivity|].
    rewrite Hr. exact IH.
Qed.
End Parser.

(** ** The cache *)

Section Cache.
Context `{rt : PyRuntime}.
Implicit Types (m : service_module) (w : web) (now ttl : Z) (c : cache_state).
Implicit Types (v : fetch_value) (f : string -> exc fetch_value).
Local Open Scope Z_scope.

Lemma cached_hit ttl f now c key v :
  cache_get now c key = Some v -> cached ttl f now c key = (Return v, c).
Proof. intros Hget. unfold cached. rewrite Hget. reflexivity. Qed.

Lemma cached_miss ttl f now c key v :
  cache_get now c key = None -> f key = Return v ->
  cached ttl f now c key =
    (Return v, <[key := {| entry_value := v; entry_expires := now + ttl |}]> c).
Proof. intros Hget Hf. unfold cached. rewrite Hget, Hf. reflexivity. Qed.


Lemma cache_get_Some now c key v :
  cache_get now c key = Some v ->
  exists e, c !! key = Some e /\ entry_value e = v /\ now < entry_expires e.
Proof.
  unfold cache_get. destruct (c !! key) as [e|]; [|discriminate].
  destruct (now <? entry_expires e) eqn:Hlt; [|discriminate].
  intros [= <-]. exists e. repeat split. apply Z.ltb_lt, Hlt.
Qed.

Lemma cache_get_empty now key : cache_get now ∅ key = None.
Proof. unfold cache_get. rewrite lookup_empty. reflexivity. Qed.

(** Until it expires, a stored value is what a lookup returns. *)
Lemma cache_get_fresh now ttl later c key v :
  later < now + ttl ->
  cache_get later (<[key := {| entry_value := v; entry_expires := now + ttl |}]> c) key
    = Some v.
Proof.
  intros Hlt. unfold cache_get. rewrite lookup_insert_eq. simpl.
  apply Z.ltb_lt in Hlt. rewrite Hlt. reflexivity.
Qed.

(** The body never returns metadata. *)
Lemma body_metadata m w url v :
  fetch_and_parse_rate_data_body m w url = Return v -> v.1.2 = None /\ v.2 = None.
Proof.
  unfold fetch_and_parse_rate_data_body, http_get.
  destruct (w url); simpl; try discriminate.
  destruct (_parse_exchange_rate_data (settings m) doc); simpl; [discriminate|].
  intros [= <-]. split; reflexivity.
Qed.

(** Neither does the decorated function, on a hit or on a miss, as long as
    the cache holds only what the function stored. *)
Lemma fetch_metadata m w now c url v c' :
  no_metadata c ->
  fetch_and_parse_rate_data m w now c url = (Return v, c') ->
  v.1.2 = None /\ v.2 = None /\ no_metadata c'.
Proof.
  intros Hc. unfold fetch_and_parse_rate_data, cached.
  destruct (cache_get now c url) as [v0|] eqn:Hget.
  - intros [= <- <-].
    apply cache_get_Some in Hget as (e & He & <- & _).
    destruct (Hc url e He) as [H1 H2]. split; [|split]; assumption.
  - destruct (fetch_and_parse_rate_data_body m w url) as [v0|e] eqn:Hbody;
      [|discriminate].
    intros [= <- <-].
    destruct (body_metadata m w url v0 Hbody) as [H1 H2].
    split; [exact H1|]. split; [exact H2|].
    intros key e. destruct (decide (url = key)) as [<-|Hne].
    + rewrite lookup_insert_eq. intros [= <-]. simpl. split; assumption.
    + rewrite lookup_insert_ne by assumption. apply Hc.
Qed.

End Cache.

(** ** The configuration *)

Section Config.
Context `{rt : PyRuntime}.

(** C7, as the code has it. The configuration does not validate the cache
    timeout: whenever the environment's integers parse, [Settings()] and
    the import of the service succeed, and the timeout is kept as
    configured, whatever its sign. *)
Theorem settings_accept_any_timeout (env : environ) (port workers timeout : Z) :
  int_of_text (env !! "APP_PORT") = Return port ->
  int_of_text (Some (default "4" (env !! "APP_WORKERS"))) = Return workers ->
  py_int (str_or (default "5" (env !! "CACHE_TIMEOUT")) "5") = Some timeout ->
  exists m, import_module env = Return m /\ CACHE_TIMEOUT (settings m) = timeout.
Proof.
  intros Hport Hworkers Htimeout.
  unfold import_module, Settings_init.
  rewrite Hport, Hworkers. simpl. rewrite Htimeout. simpl.
  eexists. split; reflexivity.
Qed.
End Config.

(** ** The configuration file, item by item *)

Section ConfigText.

Lemma split_on_cons sep s : exists w ws, split_on sep s = w :: ws.
Proof.
  destruct s as [|c s]; simpl; [eauto|].
  destruct (Ascii.eqb c sep); [eauto|].
  destruct (split_on sep s); eauto.
Qed.

Lemma concat_cons_cons sep w w' ws :
  String.concat sep (w :: w' :: ws) = w ++ sep ++ String.concat sep (w' :: ws).
Proof. reflexivity. Qed.

Lemma concat_String sep c w ws :
  String.concat sep (String c w :: ws) = String c (String.concat sep (w :: ws)).
Proof. destruct ws; reflexivity. Qed.

Lemma concat_split_on sep s : String.concat (String sep "") (split_on sep s) = s.
Proof.
  induction s as [|c s IH]; simpl; [reflexivity|].
  destruct (Ascii.eqb_spec c sep) as [->|Hne].
  - destruct (split_on_cons sep s) as (w & ws & Hs).
    rewrite Hs in IH |- *. rewrite concat_cons_cons, IH. reflexivity.
  - destruct (split_on_cons sep s) as (w & ws & Hs).
    rewrite Hs in IH |- *. rewrite concat_String, IH. reflexivity.
Qed.

Lemma split_on_free sep s :
  Forall (fun item => ~ In sep (list_ascii_of_string item)) (split_on sep s).
Proof.
  induction s as [|c s IH]; simpl.
  - constructor; [intros []|constructor].
  - destruct (Ascii.eqb_spec c sep) as [->|Hne].
    + constructor; [intros []|exact IH].
    + destruct (split_on sep s) as [|w ws]; [repeat constructor; simpl; tauto|].
      inversion IH as [|? ? Hw Hws]; subst.
      constructor; [|exact Hws]. simpl. intros [H|H]; [congruence|tauto].
Qed.

(** X1. [_parse_list] and [",".join] are inverse to each other on every
    string: joining the items with commas gives the value back.  No item
    contains a comma, and the list is empty exactly for the empty value. *)
Theorem parse_list_round_trip (value : string) :
  String.concat "," (_parse_list value) = value /\
  Forall (fun item => ~ In ","%char (list_ascii_of_string item)) (_parse_list value) /\
  (_parse_list value = [] <-> value = "").
Proof.
  unfold _parse_list. destruct (String.eqb_spec value "") as [->|Hne].
  - split; [reflexivity|]. split; [constructor|]. split; reflexivity.
  - split; [apply concat_split_on|]. split; [apply split_on_free|].
    split; [|contradiction].
    destruct (split_on_cons "," value) as (w & ws & ->). discriminate.
Qed.

Lemma dict_get_set {V} (k k' : string) (v : V) d :
  dict_get k' (dict_set k v d) = if String.eqb k k' then Some v else dict_get k' d.
Proof.
  induction d as [|[k0 v0] d IH]; simpl.
  - rewrite String.eqb_sym. destruct (String.eqb k' k); reflexivity.
  - destruct (String.eqb_spec k0 k) as [->|Hne]; simpl.
    + destruct (String.eqb k k'); reflexivity.
    + rewrite IH. destruct (String.eqb_spec k0 k') as [->|Hne'].
      * apply String.eqb_neq in Hne. rewrite String.eqb_sym, Hne. reflexivity.
      * reflexivity.
Qed.

Lemma dict_get_None {V} (k : string) (d : list (string * V)) :
  dict_get k d = None <-> k ∉ d.*1.
Proof.
  induction d as [|[k0 v0] d IH]; simpl.
  - split; [intros _; apply not_elem_of_nil|reflexivity].
  - rewrite not_elem_of_cons. destruct (String.eqb_spec k0 k) as [->|Hne].
    + split; [discriminate|intros [H _]; congruence].
    + rewrite IH. split; [intros H; split; [congruence|exact H]|intros [_ H]; exact H].
Qed.

Lemma dict_set_keys {V} (k : string) (v : V) d :
  (dict_set k v d).*1 = if decide (k ∈ d.*1) then d.*1 else (d.*1 ++ [k])%list.
Proof.
  induction d as [|[k0 v0] d IH].
  - simpl. destruct (decide (k ∈ [])) as [Hin|_]; [|reflexivity].
    apply not_elem_of_nil in Hin. contradiction.
  - cbn [dict_set]. destruct (String.eqb_spec k0 k) as [->|Hne].
    + cbn. destruct (decide (k ∈ k :: d.*1)) as [_|Hout]; [reflexivity|].
      exfalso. apply Hout, list_elem_of_here.
    + cbn [fmap list_fmap fst]. change (list_fmap _ _ fst ?l) with (l.*1).
      rewrite IH.
      destruct (decide (k ∈ d.*1)) as [Hin|Hout];
        destruct (decide (k ∈ k0 :: d.*1)) as [Hin'|Hout']; try reflexivity.
      * exfalso. apply Hout', list_elem_of_further, Hin.
      * apply elem_of_cons in Hin' as [->|Hin']; [congruence|contradiction].
Qed.

Lemma dict_set_NoDup {V} (k : string) (v : V) d :
  NoDup d.*1 -> NoDup (dict_set k v d).*1.
Proof.
  intros Hd. rewrite dict_set_keys. destruct (decide (k ∈ d.*1)); [exact Hd|].
  apply NoDup_app. split; [exact Hd|]. split.
  - intros x Hx Hk. apply list_elem_of_singleton in Hk. congruence.
  - apply NoDup_singleton.
Qed.

Lemma parse_dict_fold (value : string) :
  _parse_dict value =
    foldl (fun d kv => dict_set kv.1 kv.2 d) []
      (omap (split_once ":") (split_on "," value)).
Proof.
  unfold _parse_dict. destruct (String.eqb_spec value "") as [->|_]; [reflexivity|].
  generalize (@nil (string * string)).
  induction (split_on "," value) as [|item items IH]; intros d; simpl; [reflexivity|].
  destruct (split_once ":" item) as [[k v]|]; simpl; apply IH.
Qed.


Lemma split_once_spec sep item k v :
  split_once sep item = Some (k, v) <->
  item = k ++ String sep v /\ ~ In sep (list_ascii_of_string k).
Proof.
  revert k. induction item as [|c item IH]; intros k; simpl.
  - split; [discriminate|]. intros [H _]. destruct k; discriminate.
  - destruct (Ascii.eqb_spec c sep) as [->|Hne].
    + split.
      * intros [= <- <-]. split; [reflexivity|intros []].
      * intros [H Hk]. destruct k as [|a k]; simpl in H.
        -- injection H as ->. reflexivity.
        -- injection H as -> _. simpl in Hk. tauto.
    + destruct (split_once sep item) as [[k' v']|] eqn:Hs.
      * split.
        -- intros [= <- <-]. destruct (proj1 (IH k') eq_refl) as [-> Hk'].
           split; [reflexivity|]. simpl. intros [H|H]; [congruence|tauto].
        -- intros [H Hk]. destruct k as [|a k]; simpl in H.
           ++ injection H as -> _. congruence.
           ++ injection H as -> ->. simpl in Hk.
              assert (Some (k', v') = Some (k, v)) as [= -> ->];
                [|reflexivity].
              apply IH. split; [reflexivity|tauto].
      * split; [discriminate|]. intros [H Hk]. destruct k as [|a k]; simpl in H.
        -- injection H as -> _. congruence.
        -- injection H as -> ->. simpl in Hk.
           assert (None = Some (k, v)) by (apply IH; split; [reflexivity|tauto]).
           discriminate.
Qed.
(** X2. [_parse_dict] on any string: the keys of the result are pairwise
    distinct, and the value found under a key is that of the last
    comma-separated item [key:value] with this key, an item being cut at
    its first colon and items without a colon being passed over. *)
Theorem parse_dict_lookup (value key : string) :
  let pairs := omap (split_once ":") (split_on "," value) in
  NoDup (_parse_dict value).*1 /\
  dict_get key (_parse_dict value) =
    snd <$> last (filter (fun kv => kv.1 = key) pairs) /\
  (forall item k v,
     split_once ":" item = Some (k, v) <->
     item = k ++ String ":" v /\ ~ In ":"%char (list_ascii_of_string k)).
Proof.
  intros pairs. split; [|split; [|intros item k v; apply split_once_spec]];
    rewrite parse_dict_fold; fold pairs.
  - induction pairs as [|[k v] ps IH] using rev_ind; simpl; [constructor|].
    rewrite foldl_app. simpl. apply dict_set_NoDup, IH.
  - induction pairs as [|[k v] ps IH] using rev_ind; simpl; [reflexivity|].
    rewrite foldl_app. simpl. rewrite dict_get_set, filter_app, IH.
    destruct (String.eqb_spec k key) as [->|Hne].
    + rewrite filter_cons_True by reflexivity.
      rewrite filter_nil, last_snoc. reflexivity.
    + rewrite filter_cons_False by exact Hne.
      rewrite filter_nil, app_nil_r. reflexivity.
Qed.
End ConfigText.


(** ** Building the settings *)

Section ConfigInit.
Context `{rt : PyRuntime}.

(** X3. [Settings()] succeeds exactly when [APP_PORT] is set and the texts
    of [APP_PORT], of [APP_WORKERS] (["4"] when unset) and of
    [CACHE_TIMEOUT] (["5"] when unset or empty) are integers; the settings
    are then read off the environment.  It raises [TypeError] exactly when
    [APP_PORT] is unset, and otherwise only [ValueError]. *)
Theorem settings_init_outcomes (env : environ) :
  (forall s,
     Settings_init env = Return s <->
     exists port_text port workers timeout,
       env !! "APP_PORT" = Some port_text /\
       py_int port_text = Some port /\
       py_int (default "4" (env !! "APP_WORKERS")) = Some workers /\
       py_int (str_or (default "5" (env !! "CACHE_TIMEOUT")) "5") = Some timeout /\
       s = {| APP_PORT := port;
              APP_WORKERS := workers;
              CACHE_TIMEOUT := timeout;
              BOC_URL := env !! "BOC_URL";
              SUPPORTED_CURRENCIES :=
                _parse_list (default "" (env !! "SUPPORTED_CURRENCIES"));
              CURRENCY_NAMES := _parse_dict (default "" (env !! "CURRENCY_NAMES")) |}) /\
  (Settings_init env = Raise TypeError <-> env !! "APP_PORT" = None) /\
  (forall e, Settings_init env = Raise e -> e = TypeError \/ e = ValueError).
Proof.
  unfold Settings_init, int_of_text.
  destruct (env !! "APP_PORT") as [port_text|]; simpl.
  2: { split; [|split; [split; reflexivity | intros e [= <-]; auto]].
       intros s. split; [discriminate|].
       intros (pt & p & wk & t & Hpt & _). discriminate. }
  destruct (py_int port_text) as [port|] eqn:Hport; simpl.
  2: { split; [|split; [split; discriminate | intros e [= <-]; auto]].
       intros s. split; [discriminate|].
       intros (pt & p & wk & t & [= <-] & Hp & _). congruence. }
  destruct (py_int (default "4" (env !! "APP_WORKERS"))) as [workers|] eqn:Hw; simpl.
  2: { split; [|split; [split; discriminate | intros e [= <-]; auto]].
       intros s. split; [discriminate|].
       intros (pt & p & wk & t & _ & _ & Hwk & _). discriminate. }
  destruct (py_int (str_or (default "5" (env !! "CACHE_TIMEOUT")) "5"))
    as [timeout|] eqn:Ht; simpl.
  2: { split; [|split; [split; discriminate | intros e [= <-]; auto]].
       intros s. split; [discriminate|].
       intros (pt & p & wk & t & _ & _ & _ & Htm & _). discriminate. }
  split; [|split; [split; discriminate | discriminate]].
  intros s. split.
  - intros [= <-]. exists port_text, port, workers, timeout. auto.
  - intros (pt & p & wk & t & [= <-] & Hp & Hwk & Htm & ->).
    rewrite Hport in Hp. injection Hp as <-.
    injection Hwk as <-. injection Htm as <-. reflexivity.
Qed.

(** X4. The import of the service succeeds exactly when [Settings()] does,
    and [CACHE_TTL] is then 600 seconds whatever the environment says:
    the attribute [CACHE_TTL_MINUTES] that the module asks for is not one of
    the settings, so the default of ten minutes is taken. *)
Theorem import_module_ttl (env : environ) (m : service_module) :
  import_module env = Return m <->
  Settings_init env = Return (settings m) /\ CACHE_TTL m = 600%Z.
Proof.
  unfold import_module. destruct (Settings_init env) as [s|e]; simpl.
  - split.
    + intros [= <-]. split; reflexivity.
    + destruct m as [s' ttl]. simpl. intros [[= ->] ->]. reflexivity.
  - split; [discriminate | intros [H _]; discriminate H].
Qed.
End ConfigInit.

(** ** More on the parser *)

Section ParserMore.
Context `{rt : PyRuntime}.
Implicit Types (s : Settings) (doc : soup) (rows before after : list html_row).
Implicit Types (rmap : gmap string string) (names : list (string * string)).
Local Open Scope Z_scope.

(** X5. The parser works on the first table of the document whose
    [bgcolor] is ["#EAEAEA"]: the tables before it do not have that colour,
    and what comes after it is not looked at. *)
Theorem find_table_first doc table :
  find_table doc = Some table <->
  exists earlier later,
    doc = (earlier ++ table :: later)%list /\
    bgcolor table = Some "#EAEAEA" /\
    Forall (fun t => bgcolor t <> Some "#EAEAEA") earlier.
Proof.
  induction doc as [|t ts IH]; simpl.
  - split; [discriminate|]. intros (before & after & Hdoc & _).
    destruct before; discriminate.
  - assert (Hmark : bgcolor t = Some "#EAEAEA" ->
              (match bgcolor t with
               | Some c => if String.eqb c "#EAEAEA" then Some t else find_table ts
               | None => find_table ts
               end) = Some t) by (intros ->; reflexivity).
    assert (Hnot : bgcolor t <> Some "#EAEAEA" ->
              (match bgcolor t with
               | Some c => if String.eqb c "#EAEAEA" then Some t else find_table ts
               | None => find_table ts
               end) = find_table ts).
    { destruct (bgcolor t) as [c|]; [|reflexivity]. intros Hc.
      destruct (String.eqb_spec c "#EAEAEA") as [Heq|_]; [congruence|reflexivity]. }
    destruct (decide (bgcolor t = Some "#EAEAEA")) as [Hyes|Hno].
    + rewrite (Hmark Hyes). split.
      * intros [= <-]. exists [], ts. repeat split; [exact Hyes|constructor].
      * intros (before & after & Hdoc & Hcol & Hbefore).
        destruct before as [|t0 before]; simpl in Hdoc.
        -- injection Hdoc as -> _. reflexivity.
        -- injection Hdoc as <- _. inversion Hbefore; subst. contradiction.
    + rewrite (Hnot Hno), IH. split.
      * intros (before & after & -> & Hcol & Hbefore).
        exists (t :: before), after. repeat split; [exact Hcol|].
        constructor; assumption.
      * intros (before & after & Hdoc & Hcol & Hbefore).
        destruct before as [|t0 before]; simpl in Hdoc.
        -- injection Hdoc as -> _. contradiction.
        -- injection Hdoc as <- ->. inversion Hbefore; subst.
           exists before, after. repeat split; assumption.
Qed.

Lemma column_index_eq name headers :
  (column_index name headers =? -1) = true <-> name ∉ headers.
Proof.
  split.
  - intros Hm Hin. rewrite (column_index_found _ _ Hin) in Hm. discriminate.
  - apply column_index_missing.
Qed.

(** X6. The parser returns [{}] in three cases and no other: no table has
    the marker colour; the located table has no row; the header row of the
    located table lacks one of the three column names. *)
Theorem parse_empty_iff s doc :
  _parse_exchange_rate_data s doc = PEmpty <->
  find_table doc = None \/
  exists table,
    find_table doc = Some table /\
    (tr_rows table = [] \/
     exists header rows,
       tr_rows table = header :: rows /\
       let headers := py_strip <$> th_text header in
       "Currency Name" ∉ headers \/ "Cash Selling Rate" ∉ headers \/ "Pub Time" ∉ headers).
Proof.
  unfold _parse_exchange_rate_data.
  destruct (find_table doc) as [table|]; [|split; [left; reflexivity | reflexivity]].
  destruct (tr_rows table) as [|header rows] eqn:Hrows.
  - split; [|reflexivity]. intros _. right. exists table. split; [reflexivity|]. left. exact Hrows.
  - set (headers := py_strip <$> th_text header).
    destruct (column_index "Currency Name" headers =? -1) eqn:Hc;
    destruct (column_index "Cash Selling Rate" headers =? -1) eqn:Hs;
    destruct (column_index "Pub Time" headers =? -1) eqn:Ht; simpl;
    try (split; [|reflexivity]; intros _; right; exists table;
         split; [reflexivity|]; right; exists header, rows; split; [exact Hrows|];
         first [ left; apply column_index_eq; assumption
               | right; left; apply column_index_eq; assumption
               | right; right; apply column_index_eq; assumption ]).
    split; [discriminate|].
    intros [H | (t & [= <-] & [H | (h & r & Heq & Hmiss)])]; try discriminate.
    + rewrite Hrows in H. discriminate.
    + rewrite Hrows in Heq. injection Heq as <- <-.
      destruct Hmiss as [H | [H | H]]; apply column_index_eq in H; fold headers in H; congruence.
Qed.

Lemma stored_provenance rmap entries cur k r :
  foldl (store_entry rmap) cur entries !! k = Some r ->
  cur !! k = Some r \/
  exists e, e ∈ entries /\ e.2 = r /\ k ∈ entry_keys rmap e.
Proof.
  revert cur. induction entries as [|e entries IH]; intros cur; simpl; [auto|].
  intros Hk. apply IH in Hk as [Hk | (e' & Hin & Hr & Hkey)].
  - destruct (decide (k ∈ entry_keys rmap e)) as [Hkey|Hkey].
    + right. exists e. split; [apply list_elem_of_here|]. split; [|exact Hkey].
      unfold store_entry, entry_keys in *.
      destruct (rmap !! e.1) as [code|].
      * destruct (decide (e.1 = k)) as [<-|Hne].
        -- rewrite lookup_insert_eq in Hk. congruence.
        -- rewrite lookup_insert_ne in Hk by exact Hne.
           apply elem_of_cons in Hkey as [->|Hkey].
           ++ rewrite lookup_insert_eq in Hk. congruence.
           ++ apply list_elem_of_singleton in Hkey. congruence.
      * apply list_elem_of_singleton in Hkey. subst k.
        rewrite lookup_insert_eq in Hk. congruence.
    + left. rewrite (store_entry_other _ _ _ _ Hkey) in Hk. exact Hk.
  - right. exists e'. split; [apply list_elem_of_further, Hin|]. auto.
Qed.

(** X7. Every rate of a parsed table comes from the page: a rate found
    under a key is the number that [float] read in the rate cell of some
    data row with a non-empty currency name, and the key is that name or
    the code that the configuration gives to that name. *)
Theorem parsed_rates_provenance s doc table header rows d k r :
  find_table doc = Some table ->
  tr_rows table = header :: rows ->
  _parse_exchange_rate_data s doc = PData d ->
  currencies d !! k = Some r ->
  let headers := py_strip <$> th_text header in
  let ci := column_index "Currency Name" headers in
  let si := column_index "Cash Selling Rate" headers in
  exists row name,
    row ∈ rows /\
    row_entry ci si row = Some (name, r) /\
    name <> "" /\
    py_float (cell (td_text row) si) = Some r /\
    (k = name \/ reverse_currency_map (CURRENCY_NAMES s) !! name = Some k).
Proof.
  intros Htable Hrows Hparse Hk headers ci si.
  assert (Hd : currencies d =
            parsed_rates (reverse_currency_map (CURRENCY_NAMES s)) ci si rows).
  { revert Hparse. unfold _parse_exchange_rate_data. rewrite Htable, Hrows.
    fold headers. fold ci si.
    destruct (_ || _ || _); [discriminate|].
    intros [= <-]. simpl. apply loop_rates. }
  rewrite Hd in Hk. unfold parsed_rates in Hk.
  apply stored_provenance in Hk as [Hk | ([name r'] & Hin & Hr & Hkey)].
  { rewrite lookup_empty in Hk. discriminate. }
  simpl in Hr. subst r'.
  apply list_elem_of_omap in Hin as (row & Hrow & Hentry).
  exists row, name. split; [exact Hrow|]. split; [exact Hentry|].
  assert (Hname : name <> "" /\ py_float (cell (td_text row) si) = Some r).
  { revert Hentry. unfold row_entry.
    destruct (_ <=? _); [discriminate|].
    destruct (String.eqb_spec (cell (td_text row) ci) "") as [|Hne]; [discriminate|].
    destruct (String.eqb (cell (td_text row) si) ""); [discriminate|].
    destruct (py_float (cell (td_text row) si)) as [r0|]; [|discriminate].
    intros [= <- <-]. split; [exact Hne|reflexivity]. }
  destruct Hname as [Hne Hfloat]. split; [exact Hne|]. split; [exact Hfloat|].
  unfold entry_keys in Hkey. simpl in Hkey.
  destruct (reverse_currency_map (CURRENCY_NAMES s) !! name) as [code|].
  - apply elem_of_cons in Hkey as [->|Hkey]; [right; reflexivity|].
    apply list_elem_of_singleton in Hkey. left. exact Hkey.
  - apply list_elem_of_singleton in Hkey. left. exact Hkey.
Qed.
Lemma reverse_map_last names name :
  reverse_currency_map names !! name =
    fst <$> last (filter (fun kv => kv.2 = name) names).
Proof.
  unfold reverse_currency_map.
  induction names as [|[k v] names IH] using rev_ind; [apply lookup_empty|].
  rewrite foldl_app, filter_app. simpl.
  destruct (decide (v = name)) as [->|Hne].
  - rewrite lookup_insert_eq, filter_cons_True by reflexivity.
    rewrite filter_nil, last_snoc. reflexivity.
  - rewrite lookup_insert_ne by exact Hne.
    rewrite filter_cons_False by exact Hne.
    rewrite filter_nil, app_nil_r. exact IH.
Qed.

Lemma dict_get_elem {V} (k : string) (v : V) d : dict_get k d = Some v -> (k, v) ∈ d.
Proof.
  induction d as [|[k0 v0] d IH]; simpl; [discriminate|].
  destruct (String.eqb_spec k0 k) as [->|_].
  - intros [= ->]. apply list_elem_of_here.
  - intros H. apply list_elem_of_further, IH, H.
Qed.

Lemma filter_unique_value names code name :
  NoDup names.*2 -> (code, name) ∈ names ->
  filter (fun kv => kv.2 = name) names = [(code, name)].
Proof.
  induction names as [|[k v] names IH]; intros Hnd Hin.
  - apply not_elem_of_nil in Hin. contradiction.
  - cbn in Hnd. apply NoDup_cons in Hnd as [Hv Hnd].
    apply elem_of_cons in Hin as [[= <- <-]|Hin].
    + rewrite filter_cons_True by reflexivity. f_equal.
      clear IH. induction names as [|[k' v'] names IH']; [reflexivity|].
      cbn in Hv. apply not_elem_of_cons in Hv as [Hne Hv].
      apply NoDup_cons in Hnd as [_ Hnd].
      rewrite filter_cons_False by (simpl; congruence). apply IH'; assumption.
    + rewrite filter_cons_False; [apply IH; assumption|].
      simpl. intros ->. apply Hv.
      apply (list_elem_of_fmap_2 snd) in Hin. exact Hin.
Qed.

Lemma reverse_map_unique names code name :
  NoDup names.*2 ->
  dict_get code names = Some name ->
  reverse_currency_map names !! name = Some code.
Proof.
  intros Hnd Hget. rewrite reverse_map_last.
  rewrite (filter_unique_value names code name Hnd (dict_get_elem _ _ _ Hget)).
  reflexivity.
Qed.

(** X8. The reversed name table gives, for a display name, the code of the
    last configured pair with that name.  When the display names are
    pairwise distinct it inverts the configuration: the name configured for
    a code leads back to that code. *)
Theorem reverse_map_round_trip names :
  (forall name,
     reverse_currency_map names !! name =
       fst <$> last (filter (fun kv => kv.2 = name) names)) /\
  (forall name code,
     reverse_currency_map names !! name = Some code -> (code, name) ∈ names) /\
  (NoDup names.*2 ->
   forall code name,
     dict_get code names = Some name ->
     reverse_currency_map names !! name = Some code).
Proof.
  split; [exact (reverse_map_last names)|]. split.
  - intros name code. rewrite reverse_map_last.
    destruct (last (filter (fun kv => kv.2 = name) names)) as [[k v]|] eqn:Hlast;
      [|discriminate].
    simpl. intros [= ->].
    apply last_Some_elem_of, list_elem_of_filter in Hlast as [Hv Hin].
    simpl in Hv. subst v. exact Hin.
  - intros Hnd code name Hget. rewrite reverse_map_last.
    rewrite (filter_unique_value names code name Hnd (dict_get_elem _ _ _ Hget)).
    reflexivity.
Qed.

Lemma parsed_rates_code rmap ci si before row after name code r :
  row_entry ci si row = Some (name, r) ->
  rmap !! name = Some code ->
  Forall (fun e => code ∉ entry_keys rmap e) (omap (row_entry ci si) after) ->
  parsed_rates rmap ci si (before ++ row :: after)%list !! code = Some r.
Proof.
  intros Hrow Hcode Hafter. unfold parsed_rates.
  rewrite omap_app. simpl. rewrite Hrow, foldl_app. simpl.
  rewrite (stored_entries_other _ _ _ _ Hafter).
  unfold store_entry. simpl. rewrite Hcode.
  destruct (decide (name = code)) as [->|Hne].
  - apply lookup_insert_eq.
  - rewrite lookup_insert_ne by exact Hne. apply lookup_insert_eq.
Qed.
End ParserMore.


(** ** More on the cache *)

Section CacheMore.
Context `{rt : PyRuntime}.
Implicit Types (m : service_module) (w : web) (now ttl : Z) (c : cache_state).
Implicit Types (v : fetch_value).
Local Open Scope Z_scope.

(** X9. The undecorated fetch returns exactly when the page is served and
    parses to a table, and then returns the table with [None] twice.
    Otherwise it raises a plain [Exception], whose message tells the cause:
    a timeout, an HTTP status, a network error, or a page that does not
    parse; no other exception leaves it. *)
Theorem fetch_body_outcomes m w url :
  (forall v, fetch_and_parse_rate_data_body m w url = Return v <->
     exists doc d, w url = HttpOk doc /\
       _parse_exchange_rate_data (settings m) doc = PData d /\ v = (d, None, None)) /\
  (forall e, fetch_and_parse_rate_data_body m w url = Raise e <->
     exists why, e = Exception why /\
       match w url with
       | HttpTimeout => why = TimedOut
       | HttpStatus _ => why = HttpError
       | HttpNetwork => why = NetworkError
       | HttpOk doc =>
           why = FetchOrParseError /\ _parse_exchange_rate_data (settings m) doc = PEmpty
       end).
Proof.
  unfold fetch_and_parse_rate_data_body, http_get, try_except.
  destruct (w url) as [| status | | doc] eqn:Hw; simpl.
  - split; [intros v; split; [discriminate | intros (doc & d & H & _); discriminate H]|].
    intros e; split.
    + intros H. injection H as <-. exists TimedOut. split; reflexivity.
    + intros (why & -> & ->). reflexivity.
  - split; [intros v; split; [discriminate | intros (doc & d & H & _); discriminate H]|].
    intros e; split.
    + intros H. injection H as <-. exists HttpError. split; reflexivity.
    + intros (why & -> & ->). reflexivity.
  - split; [intros v; split; [discriminate | intros (doc & d & H & _); discriminate H]|].
    intros e; split.
    + intros H. injection H as <-. exists NetworkError. split; reflexivity.
    + intros (why & -> & ->). reflexivity.
  - destruct (_parse_exchange_rate_data (settings m) doc) as [|d] eqn:Hp; simpl.
    + split.
      * intros v; split; [discriminate|].
        intros (doc' & d' & H & Hp' & _). injection H as <-. congruence.
      * intros e; split.
        -- intros H. injection H as <-. exists FetchOrParseError. repeat split.
        -- intros (why & -> & -> & _). reflexivity.
    + split.
      * intros v; split.
        -- intros H. injection H as <-. exists doc, d. repeat split. exact Hp.
        -- intros (doc' & d' & H & Hp' & ->). injection H as <-.
           rewrite Hp in Hp'. injection Hp' as <-. reflexivity.
      * intros e; split; [discriminate|].
        intros (why & _ & _ & H). discriminate H.
Qed.

(** X10. After a call that found nothing fresh in the cache and fetched a
    table, every call for the same URL strictly before the time of the
    fetch plus [CACHE_TTL] returns that same triple and leaves the cache as
    it is, whatever the network has become. *)
Theorem fresh_entry_is_served m w now c url v c1 :
  cache_get now c url = None ->
  fetch_and_parse_rate_data m w now c url = (Return v, c1) ->
  forall w' later, later < now + CACHE_TTL m ->
    fetch_and_parse_rate_data m w' later c1 url = (Return v, c1).
Proof.
  intros Hmiss Hfetch w' later Hlater.
  unfold fetch_and_parse_rate_data, cached in Hfetch. rewrite Hmiss in Hfetch.
  destruct (fetch_and_parse_rate_data_body m w url) as [v0|e]; [|discriminate].
  injection Hfetch as <- <-.
  apply cached_hit, cache_get_fresh, Hlater.
Qed.

(** X11. From the time of the fetch plus [CACHE_TTL] on, the stored table
    is no longer served: a call runs the fetch again, stores a table it
    gets with a new expiry time, and lets a failure through while leaving
    the cache as it is. *)
Theorem expired_entry_is_refetched m w now c url v c1 :
  cache_get now c url = None ->
  fetch_and_parse_rate_data m w now c url = (Return v, c1) ->
  forall w' later, now + CACHE_TTL m <= later ->
    fetch_and_parse_rate_data m w' later c1 url =
      match fetch_and_parse_rate_data_body m w' url with
      | Return v' =>
          (Return v',
           <[url := {| entry_value := v'; entry_expires := later + CACHE_TTL m |}]> c1)
      | Raise e => (Raise e, c1)
      end.
Proof.
  intros Hmiss Hfetch w' later Hlater.
  unfold fetch_and_parse_rate_data, cached in Hfetch. rewrite Hmiss in Hfetch.
  destruct (fetch_and_parse_rate_data_body m w url) as [v0|e]; [|discriminate].
  injection Hfetch as <- <-.
  unfold fetch_and_parse_rate_data, cached, cache_get.
  rewrite lookup_insert_eq. simpl.
  apply Z.ltb_ge in Hlater. rewrite Hlater. reflexivity.
Qed.

(** X12. A call touches the cache under its own URL only; a call that
    raises leaves the cache unchanged; a call that returns leaves the
    returned triple stored under the URL. *)
Theorem fetch_frame m w now c url :
  let result := fetch_and_parse_rate_data m w now c url in
  (forall key, key <> url -> result.2 !! key = c !! key) /\
  (forall e, result.1 = Raise e -> result.2 = c) /\
  (forall v, result.1 = Return v ->
     exists e, result.2 !! url = Some e /\ entry_value e = v).
Proof.
  assert (Hmiss : forall c0 : cache_state,
            let result :=
              match fetch_and_parse_rate_data_body m w url with
              | Return v =>
                  (Return v,
                   <[url := {| entry_value := v;
                               entry_expires := now + CACHE_TTL m |}]> c0)
              | Raise e => (Raise e, c0)
              end in
            (forall key, key <> url -> result.2 !! key = c0 !! key) /\
            (forall e, result.1 = Raise e -> result.2 = c0) /\
            (forall v, result.1 = Return v ->
               exists e, result.2 !! url = Some e /\ entry_value e = v)).
  { intros c0. destruct (fetch_and_parse_rate_data_body m w url) as [v0|e0]; simpl.
    - split; [intros key Hne; apply lookup_insert_ne; congruence|].
      split; [discriminate|]. intros v [= <-].
      eexists. split; [apply lookup_insert_eq | reflexivity].
    - split; [reflexivity|]. split; [reflexivity|]. discriminate. }
  unfold fetch_and_parse_rate_data, cached, cache_get.
  destruct (c !! url) as [e0|] eqn:Hc; [|apply Hmiss].
  destruct (now <? entry_expires e0); [|apply Hmiss]. simpl.
  split; [reflexivity|]. split; [reflexivity|].
  intros v [= <-]. exists e0. split; [exact Hc | reflexivity].
Qed.

Lemma fetch_raise_unchanged m w now c url e c' :
  fetch_and_parse_rate_data m w now c url = (Raise e, c') -> c' = c.
Proof.
  unfold fetch_and_parse_rate_data, cached.
  destruct (cache_get now c url); [discriminate|].
  destruct (fetch_and_parse_rate_data_body m w url); [discriminate|].
  intros [= _ <-]. reflexivity.
Qed.

Lemma reachable_is_no_metadata m c : reachable m c -> no_metadata c.
Proof.
  induction 1 as [|c w now url _ IH].
  - intros key e He. rewrite lookup_empty in He. discriminate.
  - destruct (fetch_and_parse_rate_data m w now c url) as [[v|e] c'] eqn:Hf; simpl.
    + exact (proj2 (proj2 (fetch_metadata m w now c url v c' IH Hf))).
    + rewrite (fetch_raise_unchanged m w now c url e c' Hf). exact IH.
Qed.

(** X13. In every cache that calls of the decorated function can build
    from the empty one, each stored triple has [None] for [is_cached] and
    for [next_update]; and every successful call on such a cache, served
    from it or fetched, returns [None] for both. *)
Theorem reachable_no_metadata m c :
  reachable m c ->
  no_metadata c /\
  (forall w now url v c',
     fetch_and_parse_rate_data m w now c url = (Return v, c') ->
     v.1.2 = None /\ v.2 = None).
Proof.
  intros Hreach. pose proof (reachable_is_no_metadata m c Hreach) as Hnm.
  split; [exact Hnm|].
  intros w now url v c' Hf.
  destruct (fetch_metadata m w now c url v c' Hnm Hf) as (H1 & H2 & _). auto.
Qed.
End CacheMore.

(** ** More on the calculator *)

Section CalculatorMore.
Context `{rt : PyRuntime}.
Implicit Types (m : service_module) (w : web) (now : Z) (c : cache_state).
Local Open Scope Z_scope.

(** X14. When no table can be had (the URL is not configured, or nothing
    fresh is cached and the fetch does not return), [get_exchange_rate]
    answers every request with [(None, False, now + CACHE_TTL)] and leaves
    the cache as it is. *)
Theorem no_table_no_rate m w now c from to :
  (BOC_URL (settings m) = None \/
   exists url, BOC_URL (settings m) = Some url /\
     cache_get now c url = None /\
     forall d, fetch_and_parse_rate_data_body m w url <> Return d) ->
  get_exchange_rate m w now c from to = (failure_result m now, c).
Proof.
  intros [Hurl | (url & Hurl & Hmiss & Hbody)];
    unfold get_exchange_rate, fetch_configured; rewrite Hurl; [reflexivity|].
  unfold fetch_and_parse_rate_data, cached. rewrite Hmiss.
  destruct (fetch_and_parse_rate_data_body m w url) as [d|e]; [|reflexivity].
  exfalso. exact (Hbody d eq_refl).
Qed.

Lemma try_metadata m v from to rate ic nu :
  get_exchange_rate_try m v from to = Return (RTuple rate ic nu) ->
  ic = v.1.2 /\ nu = v.2 /\ is_Some rate.
Proof.
  destruct v as [[data ic0] nu0]. unfold get_exchange_rate_try. simpl.
  repeat match goal with
         | |- context [if ?b then _ else _] => destruct b
         | |- context [match lookup_rate ?a ?b ?c with _ => _ end] =>
             destruct (lookup_rate a b c)
         | |- context [py_truediv ?a ?b] => destruct (py_truediv a b); simpl
         end;
    try discriminate; intros [= <- <- <-]; repeat split; eexists; reflexivity.
Qed.

Lemma rate_metadata m w now c from to q ic nu :
  no_metadata c ->
  (get_exchange_rate m w now c from to).1 = RTuple (Some q) ic nu ->
  ic = None /\ nu = None.
Proof.
  intros Hnm. unfold get_exchange_rate.
  destruct (fetch_configured m w now c) as [[v|e] c'] eqn:Hf; simpl; [|discriminate].
  assert (Hmeta : v.1.2 = None /\ v.2 = None).
  { unfold fetch_configured in Hf. destruct (BOC_URL (settings m)); [|discriminate].
    destruct (fetch_metadata m w now c _ v c' Hnm Hf) as (H1 & H2 & _). auto. }
  destruct (get_exchange_rate_try m v from to) as [[|rate ic' nu']|e] eqn:Htry;
    try discriminate.
  intros [= -> -> ->].
  apply try_metadata in Htry as (-> & -> & _). exact Hmeta.
Qed.

(** X15. On a cache without metadata, [get_exchange_rate] has three
    possible results: a bare [None]; the failure triple
    [(None, False, now + CACHE_TTL)]; or a rate with [None] for [is_cached]
    and for [next_update].  A rate never comes with a cache flag or a
    refresh time. *)
Theorem result_shapes m w now c from to :
  no_metadata c ->
  let result := (get_exchange_rate m w now c from to).1 in
  result = RNone \/
  result = failure_result m now \/
  exists q, result = RTuple (Some q) None None.
Proof.
  intros Hnm result.
  destruct result as [|[q|] ic nu] eqn:Hres; subst result; [auto| |].
  - destruct (rate_metadata m w now c from to q ic nu Hnm Hres) as [-> ->]. eauto.
  - right. left. revert Hres. unfold get_exchange_rate.
    destruct (fetch_configured m w now c) as [[v|e] c']; simpl;
      [|intros <-; reflexivity].
    destruct (get_exchange_rate_try m v from to) as [[|rate ic' nu']|e] eqn:Htry;
      [discriminate| |intros <-; reflexivity].
    intros [= -> -> ->].
    apply try_metadata in Htry as (_ & _ & [q Hq]). discriminate.
Qed.
End CalculatorMore.


(** ** From the page to the rate *)

Section EndToEnd.
Context `{rt : PyRuntime}.
Local Open Scope Z_scope.

(** X16. From the page to the rate.  With nothing fresh in the cache, a
    page is fetched whose rate table has the three columns; a row of it has
    the display name configured for a currency code and a numeric rate, and
    no later row is stored under that code.  If the display names of the
    configuration are pairwise distinct and CNY has one, the rate from the
    code to CNY is the row's rate divided by 100. *)
Theorem page_row_gives_cny_rate (m : service_module) (w : web) (now : Z)
    (c : cache_state) (url : string) (doc : soup) (table : html_table)
    (header : html_row) (before after : list html_row) (row : html_row)
    (code name : string) (r : float) :
  BOC_URL (settings m) = Some url ->
  cache_get now c url = None ->
  w url = HttpOk doc ->
  find_table doc = Some table ->
  tr_rows table = header :: (before ++ row :: after)%list ->
  let headers := py_strip <$> th_text header in
  let ci := column_index "Currency Name" headers in
  let si := column_index "Cash Selling Rate" headers in
  let names := CURRENCY_NAMES (settings m) in
  let rmap := reverse_currency_map names in
  "Currency Name" ∈ headers -> "Cash Selling Rate" ∈ headers -> "Pub Time" ∈ headers ->
  row_entry ci si row = Some (name, r) ->
  dict_get code names = Some name ->
  NoDup names.*2 ->
  truthy (dict_get "CNY" names) = true ->
  Forall (fun e => code ∉ entry_keys rmap e) (omap (row_entry ci si) after) ->
  (get_exchange_rate m w now c code "CNY").1
    = RTuple (Some (PrimFloat.div r 100)) None None.
Proof.
  intros Hurl Hmiss Hw Htable Hrows headers ci si names rmap Hc Hs Ht
    Hrow Hname Hnodup Hcny Hafter.
  pose proof (parse_located (settings m) doc table header _ Htable Hrows Hc Hs Ht)
    as Hparse.
  fold headers in Hparse. fold ci si in Hparse. fold names in Hparse. fold rmap in Hparse.
  set (d := {| currencies := parsed_rates rmap ci si (before ++ row :: after);
               last_updated := _ |}) in Hparse.
  assert (Hfetch : fetch_configured m w now c =
            (Return (d, None, None),
             <[url := {| entry_value := (d, None, None);
                         entry_expires := now + CACHE_TTL m |}]> c)).
  { unfold fetch_configured. rewrite Hurl.
    apply cached_miss; [exact Hmiss|].
    exact (body_of_parse m w url doc d Hw Hparse). }
  assert (Hcode : currencies d !! code = Some r).
  { apply (parsed_rates_code rmap ci si before row after name code r Hrow);
      [|exact Hafter].
    exact (reverse_map_unique names code name Hnodup Hname). }
  assert (Hne : name <> "").
  { revert Hrow. unfold row_entry.
    destruct (_ <=? _); [discriminate|].
    destruct (String.eqb_spec (cell (td_text row) ci) "") as [|Hne]; [discriminate|].
    destruct (String.eqb _ ""); [discriminate|].
    destruct (py_float _); [|discriminate]. intros [= <- _]. exact Hne. }
  apply truthy_inv in Hcny as (cny_name & Hcny & Hcny_ne).
  rewrite (get_exchange_rate_fetched _ _ _ _ _ _ _ _ Hfetch).
  rewrite (try_named m (d, None, None) code "CNY" name cny_name
             (size_lookup_Some _ _ _ Hcode) Hname Hne Hcny Hcny_ne).
  subst d. simpl in Hcode |- *. unfold resolve. rewrite Hcode. reflexivity.
Qed.
End EndToEnd.


(** ** The command handlers *)

Section Handlers.
Context `{rt : PyRuntime} `{st : PyStr}.
Implicit Types (m : service_module) (w : web) (now : Z) (c : cache_state).
Local Open Scope Z_scope.

Lemma reachable_configured m w now c :
  reachable m c -> reachable m (fetch_configured m w now c).2.
Proof.
  intros Hc. unfold fetch_configured.
  destruct (BOC_URL (settings m)) as [url|]; [|exact Hc].
  apply reachable_fetch, Hc.
Qed.

Lemma configured_metadata m w now c v c' :
  reachable m c ->
  fetch_configured m w now c = (Return v, c') -> v.1.2 = None /\ v.2 = None.
Proof.
  intros Hc. unfold fetch_configured.
  destruct (BOC_URL (settings m)) as [url|]; [|discriminate].
  intros Hf.
  destruct (fetch_metadata m w now c url v c' (reachable_is_no_metadata m c Hc) Hf)
    as (H1 & H2 & _). auto.
Qed.



(** X18. In any run of the bot, [/rate] never sends the list of rates: it
    sends the no-data note or the error note.  [/currency], which has no
    [try], never sends its list: it raises. *)
Theorem listings_never_answer m w now c :
  reachable m c ->
  let rate := rate_command m w now c in
  let currency := currency_command m w now c in
  (rate.1 = NoRateData \/ exists e, rate.1 = RateError e) /\ reachable m rate.2 /\
  (exists e, currency.1 = inl e) /\ reachable m currency.2.
Proof.
  intros Hc rate currency. subst rate currency.
  unfold rate_command, currency_command.
  pose proof (reachable_configured m w now c Hc) as Hnext.
  destruct (fetch_configured m w now c) as [[[[data ic] nu]|e] c'] eqn:Hf; simpl in *.
  - destruct (configured_metadata m w now c _ c' Hc Hf) as [_ Hnu]. simpl in Hnu. subst nu.
    split; [|split; [|split; [eauto|exact Hnext]]].
    + destruct (size (currencies data) =? 0)%nat; eauto.
    + destruct (size (currencies data) =? 0)%nat; exact Hnext.
  - split; [eauto|]. split; [exact Hnext|]. split; [eauto|exact Hnext].
Qed.
End Handlers.


(** ** Redaction *)

Section Redaction.

Lemma dict_set_same {V} (k : string) (v : V) d :
  dict_get k d = Some v -> dict_set k v d = d.
Proof.
  induction d as [|[k0 v0] d IH]; simpl; [discriminate|].
  destruct (String.eqb k0 k); [intros [= ->]; reflexivity|].
  intros H. rewrite (IH H). reflexivity.
Qed.

Lemma json_get_set key v x x' key' :
  json_set key v x = Some x' ->
  json_get key' x' = if String.eqb key key' then Some v else json_get key' x.
Proof.
  destruct x; try discriminate. intros [= <-]. simpl. apply dict_get_set.
Qed.

Lemma dict_get_replace {V} (k k' : string) (v : V) d :
  dict_get k' (dict_replace k v d) =
    if String.eqb k k' then (fun _ => v) <$> dict_get k d else dict_get k' d.
Proof.
  unfold dict_replace. destruct (dict_get k d) as [v0|] eqn:Hk.
  - rewrite dict_get_set. destruct (String.eqb k k'); reflexivity.
  - destruct (String.eqb_spec k k') as [<-|_]; [rewrite Hk|]; reflexivity.
Qed.

Lemma dict_replace_same {V} (k : string) (v : V) d :
  (forall v0, dict_get k d = Some v0 -> v0 = v) -> dict_replace k v d = d.
Proof.
  intros Hv. unfold dict_replace. destruct (dict_get k d) as [v0|] eqn:Hk; [|reflexivity].
  apply dict_set_same. rewrite Hk, (Hv v0 eq_refl). reflexivity.
Qed.

Lemma redact_names_object id_mark fields :
  redact_names id_mark (JDict fields) =
    Some (JDict (dict_replace "id" (JStr id_mark)
                   (dict_replace "first_name" (JStr "[REDACTED]") fields))).
Proof.
  unfold redact_names, dict_replace. simpl.
  destruct (dict_get "first_name" fields); simpl;
    destruct (dict_get "id" _); reflexivity.
Qed.

Lemma redact_names_other id_mark u u' :
  (forall fields, u <> JDict fields) ->
  redact_names id_mark u = Some u' -> u' = u.
Proof.
  intros Hu. unfold redact_names. destruct u as [| | | |s|items|fields]; try discriminate.
  - simpl. destruct (is_infix "first_name" s); [discriminate|]. simpl.
    destruct (is_infix "id" s); [discriminate|]. intros [= <-]. reflexivity.
  - simpl.
    destruct (existsb (fun y => match y with JStr s => String.eqb s "first_name"
                                | _ => false end) items); [discriminate|].
    simpl.
    destruct (existsb (fun y => match y with JStr s => String.eqb s "id"
                                | _ => false end) items); [discriminate|].
    intros [= <-]. reflexivity.
  - exfalso. exact (Hu fields eq_refl).
Qed.

(** What [redact_names] leaves: the two marks, and the rest as it was. *)
Lemma redact_names_spec id_mark u u' :
  redact_names id_mark u = Some u' ->
  (forall v, json_get "first_name" u' = Some v -> v = JStr "[REDACTED]") /\
  (forall v, json_get "id" u' = Some v -> v = JStr id_mark) /\
  (forall key, key <> "first_name" -> key <> "id" -> json_get key u' = json_get key u) /\
  redact_names id_mark u' = Some u'.
Proof.
  intros Hred.
  destruct (match u with JDict fields => Some fields | _ => None end) as [fields|] eqn:Hu.
  - destruct u; try discriminate. injection Hu as ->.
    rewrite redact_names_object in Hred. injection Hred as <-. simpl.
    assert (Hname : forall v,
              dict_get "first_name"
                (dict_replace "id" (JStr id_mark)
                   (dict_replace "first_name" (JStr "[REDACTED]") fields)) = Some v ->
              v = JStr "[REDACTED]").
    { intros v. rewrite !dict_get_replace. simpl.
      destruct (dict_get "first_name" fields); simpl; congruence. }
    assert (Hid : forall v,
              dict_get "id"
                (dict_replace "id" (JStr id_mark)
                   (dict_replace "first_name" (JStr "[REDACTED]") fields)) = Some v ->
              v = JStr id_mark).
    { intros v. rewrite dict_get_replace. simpl.
      destruct (dict_get "id" _); simpl; congruence. }
    split; [exact Hname|]. split; [exact Hid|]. split.
    + intros key H1 H2. apply not_eq_sym, String.eqb_neq in H1, H2.
      rewrite !dict_get_replace, H1, H2. reflexivity.
    + rewrite redact_names_object. do 2 f_equal.
      rewrite (dict_replace_same "first_name"); [apply dict_replace_same, Hid|].
      exact Hname.
  - assert (Hother : forall fields, u <> JDict fields)
      by (intros fields ->; discriminate).
    rewrite (redact_names_other id_mark u u' Hother Hred).
    split; [|split; [|split]]; try (destruct u; try discriminate;
      exfalso; eapply Hother; reflexivity).
    + reflexivity.
    + rewrite (redact_names_other id_mark u u' Hother Hred) in Hred. exact Hred.
Qed.

Lemma falsy_has_no_field key u : json_truthy u = false -> json_get key u = None.
Proof. destruct u as [| | | | | |[|]]; simpl; try reflexivity. discriminate. Qed.

Lemma redact_field_object field id_mark fields :
  redact_field field id_mark (JDict fields) =
    match dict_get field fields with
    | Some u =>
        if json_truthy u then
          u' ← redact_names id_mark u; Some (JDict (dict_set field u' fields))
        else Some (JDict fields)
    | None => Some (JDict fields)
    end.
Proof.
  unfold redact_field. simpl. destruct (dict_get field fields); reflexivity.
Qed.

Lemma redact_field_other field id_mark message message' :
  (forall fields, message <> JDict fields) ->
  redact_field field id_mark message = Some message' -> message' = message.
Proof.
  intros Hm. unfold redact_field.
  destruct message as [| | | |s|items|fields]; try discriminate.
  - simpl. destruct (is_infix field s); [discriminate|]. intros [= <-]. reflexivity.
  - simpl. destruct (existsb _ items); [discriminate|]. intros [= <-]. reflexivity.
  - exfalso. exact (Hm fields eq_refl).
Qed.

Lemma redact_field_spec field id_mark message message' :
  redact_field field id_mark message = Some message' ->
  (forall v, (json_get field message' ≫= json_get "first_name") = Some v -> v = JStr "[REDACTED]") /\
  (forall v, (json_get field message' ≫= json_get "id") = Some v -> v = JStr id_mark) /\
  (forall key, key <> field -> json_get key message' = json_get key message) /\
  (forall key, key <> "first_name" -> key <> "id" ->
     (json_get field message' ≫= json_get key) = (json_get field message ≫= json_get key)) /\
  json_truthy message' = json_truthy message /\
  ((forall fields, message <> JDict fields) -> message' = message) /\
  (forall fields, message = JDict fields -> exists fields', message' = JDict fields').
Proof.
  intros Hred.
  destruct (match message with JDict fields => Some fields | _ => None end)
    as [fields|] eqn:Hm.
  - destruct message; try discriminate. injection Hm as ->.
    rewrite redact_field_object in Hred.
    assert (Hsame : message' = JDict fields ->
              (forall u, dict_get field fields = Some u -> json_truthy u = false) ->
              (forall v, (json_get field message' ≫= json_get "first_name") = Some v -> v = JStr "[REDACTED]") /\
              (forall v, (json_get field message' ≫= json_get "id") = Some v -> v = JStr id_mark) /\
              (forall key, key <> field ->
                 json_get key message' = json_get key (JDict fields)) /\
              (forall key, key <> "first_name" -> key <> "id" ->
                 (json_get field message' ≫= json_get key) = (json_get field (JDict fields) ≫= json_get key)) /\
              json_truthy message' = json_truthy (JDict fields) /\
              ((forall fields0, JDict fields <> JDict fields0) -> message' = JDict fields) /\
              (forall fields0, JDict fields = JDict fields0 ->
                 exists fields', message' = JDict fields')).
    { intros -> Hfalsy.
      assert (Hnone : forall key, (json_get field (JDict fields) ≫= json_get key) = None).
      { intros key. simpl. destruct (dict_get field fields) as [u|] eqn:Hu; [|reflexivity].
        simpl. apply falsy_has_no_field, (Hfalsy u eq_refl). }
      repeat split; try reflexivity; try (intros v; rewrite Hnone; discriminate).
      intros fields0 _. eauto. }
    destruct (dict_get field fields) as [u|] eqn:Hu.
    + destruct (json_truthy u) eqn:Htruthy.
      * destruct (redact_names id_mark u) as [u'|] eqn:Hnames; [|discriminate].
        simpl in Hred. injection Hred as <-.
        destruct (redact_names_spec id_mark u u' Hnames) as (Hn & Hi & Ho & _).
        simpl. rewrite !dict_get_set, String.eqb_refl. simpl.
        split; [exact Hn|]. split; [exact Hi|]. split.
        { intros key Hne. rewrite dict_get_set.
          apply not_eq_sym, String.eqb_neq in Hne. rewrite Hne. reflexivity. }
        split.
        { intros key H1 H2. rewrite Hu. simpl. apply Ho; assumption. }
        split.
        { destruct fields as [|[k0 v0] fields]; [discriminate|]. simpl.
          destruct (String.eqb k0 field); reflexivity. }
        split; [intros H; exfalso; exact (H fields eq_refl)|]. eauto.
      * injection Hred as <-. apply Hsame; [reflexivity|].
        intros u0 [= <-]. exact Htruthy.
    + injection Hred as <-. apply Hsame; [reflexivity|]. discriminate.
  - assert (Hother : forall fields, message <> JDict fields)
      by (intros fields ->; discriminate).
    rewrite (redact_field_other field id_mark message message' Hother Hred).
    assert (Hnone : forall key, json_get key message = None)
      by (intros key; destruct message; try reflexivity; exfalso; eapply Hother; reflexivity).
    repeat split; try reflexivity; try (intros v; rewrite Hnone; discriminate).
    intros fields ->. exfalso. exact (Hother fields eq_refl).
Qed.

Lemma settled_fixed field id_mark message :
  (exists fields, message = JDict fields) ->
  settled field id_mark message ->
  redact_field field id_mark message = Some message.
Proof.
  intros [fields ->] Hs. rewrite redact_field_object.
  destruct (dict_get field fields) as [u|] eqn:Hu; [|reflexivity].
  destruct (json_truthy u) eqn:Ht; [|reflexivity].
  rewrite (Hs u Hu Ht). simpl. rewrite (dict_set_same _ _ _ Hu). reflexivity.
Qed.

Lemma redact_field_settles field id_mark message message' :
  redact_field field id_mark message = Some message' ->
  settled field id_mark message'.
Proof.
  intros Hred.
  destruct (match message with JDict fields => Some fields | _ => None end)
    as [fields|] eqn:Hm.
  - destruct message; try discriminate. injection Hm as ->.
    rewrite redact_field_object in Hred.
    destruct (dict_get field fields) as [u|] eqn:Hu.
    + destruct (json_truthy u) eqn:Htruthy.
      * destruct (redact_names id_mark u) as [u'|] eqn:Hnames; [|discriminate].
        simpl in Hred. injection Hred as <-.
        intros u0. simpl. rewrite dict_get_set, String.eqb_refl. intros [= <-] _.
        exact (proj2 (proj2 (proj2 (redact_names_spec id_mark u u' Hnames)))).
      * injection Hred as <-. intros u0. simpl. rewrite Hu. intros [= <-]. congruence.
    + injection Hred as <-. intros u0. simpl. rewrite Hu. discriminate.
  - assert (Hother : forall fields, message <> JDict fields)
      by (intros fields ->; discriminate).
    rewrite (redact_field_other field id_mark message message' Hother Hred).
    intros u Hu. destruct message; discriminate.
Qed.

Lemma settled_frame field id_mark other other_mark message message' :
  other <> field ->
  redact_field other other_mark message = Some message' ->
  settled field id_mark message -> settled field id_mark message'.
Proof.
  intros Hne Hred Hs u.
  destruct (redact_field_spec other other_mark message message' Hred)
    as (_ & _ & Hframe & _).
  rewrite (Hframe field (not_eq_sym Hne)). apply Hs.
Qed.

(** X19. Whenever [sanitize_user_data] returns with redaction on, what the
    result holds at [message.from_user], [message.from] and [message.chat]
    under [first_name] is ["[REDACTED]"], and under [id] it is
    ["[REDACTED_ID]"], for the chat ["[REDACTED_CHAT_ID]"]. *)
Theorem sanitize_redacts update_data sanitized :
  sanitize_user_data true update_data = Some sanitized ->
  forall field, field ∈ ["from_user"; "from"; "chat"] ->
    (forall v, json_path ["message"; field; "first_name"] sanitized = Some v ->
       v = JStr "[REDACTED]") /\
    (forall v, json_path ["message"; field; "id"] sanitized = Some v ->
       v = JStr (if String.eqb field "chat" then "[REDACTED_CHAT_ID]" else "[REDACTED_ID]")).
Proof.
  unfold sanitize_user_data. simpl.
  intros Hs field Hfield.
  assert (Hnone : (forall key, json_path ["message"; field; key] update_data = None) ->
            sanitized = update_data ->
            (forall v, json_path ["message"; field; "first_name"] sanitized = Some v ->
               v = JStr "[REDACTED]") /\
            (forall v, json_path ["message"; field; "id"] sanitized = Some v ->
               v = JStr (if String.eqb field "chat"
                         then "[REDACTED_CHAT_ID]" else "[REDACTED_ID]"))).
  { intros Hn ->. split; intros v; rewrite Hn; discriminate. }
  destruct update_data as [| | | | | |fields]; try (injection Hs as <-; apply Hnone;
    [intros key; reflexivity | reflexivity]).
  destruct (dict_get "message" fields) as [message|] eqn:Hm.
  2: { injection Hs as <-. apply Hnone; [|reflexivity].
       intros key. unfold json_path. simpl. rewrite Hm. reflexivity. }
  destruct (json_truthy message) eqn:Ht.
  2: { injection Hs as <-. apply Hnone; [|reflexivity].
       intros key. unfold json_path. simpl. rewrite Hm. simpl.
       rewrite (falsy_has_no_field _ _ Ht). reflexivity. }
  destruct (redact_field "from_user" "[REDACTED_ID]" message) as [m1|] eqn:H1;
    [|discriminate]. simpl in Hs.
  destruct (redact_field "from" "[REDACTED_ID]" m1) as [m2|] eqn:H2;
    [|discriminate]. simpl in Hs.
  destruct (redact_field "chat" "[REDACTED_CHAT_ID]" m2) as [m3|] eqn:H3;
    [|discriminate]. simpl in Hs.
  injection Hs as <-.
  destruct (redact_field_spec _ _ _ _ H1) as (Hn1 & Hi1 & _).
  destruct (redact_field_spec _ _ _ _ H2) as (Hn2 & Hi2 & Hf2 & _).
  destruct (redact_field_spec _ _ _ _ H3) as (Hn3 & Hi3 & Hf3 & _).
  unfold json_path. simpl. rewrite dict_get_set. simpl.
  repeat (apply elem_of_cons in Hfield as [->|Hfield]); simpl.
  - rewrite Hf3, Hf2 by discriminate. split; assumption.
  - rewrite Hf3 by discriminate. split; assumption.
  - split; assumption.
  - apply not_elem_of_nil in Hfield. contradiction.
Qed.

(** X20. That is all it changes: the fields of the update other than
    [message], the fields of the message other than the three, and inside
    these every field other than [first_name] and [id] are as in the
    argument; a last name, a user name or the text of the message are not
    redacted. *)
Theorem sanitize_frame update_data sanitized :
  sanitize_user_data true update_data = Some sanitized ->
  (forall key, key <> "message" -> json_get key sanitized = json_get key update_data) /\
  (forall key, key ∉ ["from_user"; "from"; "chat"] ->
     json_path ["message"; key] sanitized = json_path ["message"; key] update_data) /\
  (forall field key, key <> "first_name" -> key <> "id" ->
     json_path ["message"; field; key] sanitized =
     json_path ["message"; field; key] update_data).
Proof.
  unfold sanitize_user_data. simpl. intros Hs.
  destruct update_data as [| | | | | |fields];
    try (injection Hs as <-; repeat split; reflexivity).
  destruct (dict_get "message" fields) as [message|] eqn:Hm;
    [|injection Hs as <-; repeat split; reflexivity].
  destruct (json_truthy message) eqn:Ht;
    [|injection Hs as <-; repeat split; reflexivity].
  destruct (redact_field "from_user" "[REDACTED_ID]" message) as [m1|] eqn:H1;
    [|discriminate]. simpl in Hs.
  destruct (redact_field "from" "[REDACTED_ID]" m1) as [m2|] eqn:H2;
    [|discriminate]. simpl in Hs.
  destruct (redact_field "chat" "[REDACTED_CHAT_ID]" m2) as [m3|] eqn:H3;
    [|discriminate]. simpl in Hs.
  injection Hs as <-.
  destruct (redact_field_spec _ _ _ _ H1) as (_ & _ & Hf1 & Ho1 & _).
  destruct (redact_field_spec _ _ _ _ H2) as (_ & _ & Hf2 & Ho2 & _).
  destruct (redact_field_spec _ _ _ _ H3) as (_ & _ & Hf3 & Ho3 & _).
  assert (Hstep : forall f a b,
            (forall key, key <> f -> json_get key b = json_get key a) ->
            (forall key, key <> "first_name" -> key <> "id" ->
               json_get f b ≫= json_get key = json_get f a ≫= json_get key) ->
            forall field key, key <> "first_name" -> key <> "id" ->
              json_get field b ≫= json_get key = json_get field a ≫= json_get key).
  { intros f a b Hf Ho field key Hk1 Hk2.
    destruct (decide (field = f)) as [->|Hne]; [apply Ho; assumption|].
    rewrite (Hf field Hne). reflexivity. }
  split; [|split].
  - intros key Hne. simpl. rewrite dict_get_set.
    apply not_eq_sym, String.eqb_neq in Hne. rewrite Hne. reflexivity.
  - intros key Hkey. unfold json_path. simpl. rewrite dict_get_set, Hm. simpl.
    rewrite !not_elem_of_cons in Hkey. destruct Hkey as (K1 & K2 & K3 & _).
    rewrite Hf3, Hf2, Hf1 by assumption. reflexivity.
  - intros field key Hk1 Hk2. unfold json_path. simpl. rewrite dict_get_set, Hm. simpl.
    rewrite (Hstep "chat" m2 m3 Hf3 Ho3 field key Hk1 Hk2).
    rewrite (Hstep "from" m1 m2 Hf2 Ho2 field key Hk1 Hk2).
    exact (Hstep "from_user" message m1 Hf1 Ho1 field key Hk1 Hk2).
Qed.

(** X21. Sanitizing is idempotent: a sanitized update is left as it is by
    a second pass. *)
Theorem sanitize_idempotent update_data sanitized :
  sanitize_user_data true update_data = Some sanitized ->
  sanitize_user_data true sanitized = Some sanitized.
Proof.
  unfold sanitize_user_data. simpl. intros Hs.
  destruct update_data as [| | | | | |fields]; try (injection Hs as <-; reflexivity).
  destruct (dict_get "message" fields) as [message|] eqn:Hm;
    [|injection Hs as <-; rewrite Hm; reflexivity].
  destruct (json_truthy message) eqn:Ht;
    [|injection Hs as <-; rewrite Hm, Ht; reflexivity].
  destruct (redact_field "from_user" "[REDACTED_ID]" message) as [m1|] eqn:H1;
    [|discriminate]. simpl in Hs.
  destruct (redact_field "from" "[REDACTED_ID]" m1) as [m2|] eqn:H2;
    [|discriminate]. simpl in Hs.
  destruct (redact_field "chat" "[REDACTED_CHAT_ID]" m2) as [m3|] eqn:H3;
    [|discriminate]. simpl in Hs.
  injection Hs as <-.
  destruct (redact_field_spec _ _ _ _ H1) as (_ & _ & _ & _ & Ht1 & Hsame1 & Hobj1).
  destruct (redact_field_spec _ _ _ _ H2) as (_ & _ & _ & _ & Ht2 & Hsame2 & Hobj2).
  destruct (redact_field_spec _ _ _ _ H3) as (_ & _ & _ & _ & Ht3 & Hsame3 & Hobj3).
  rewrite dict_get_set. simpl. rewrite Ht3, Ht2, Ht1, Ht.
  assert (Hfixed : forall field id_mark,
            settled field id_mark m3 -> redact_field field id_mark m3 = Some m3 \/
            (forall fields0, message <> JDict fields0)).
  { intros field id_mark Hset.
    destruct (match message with JDict f0 => Some f0 | _ => None end) as [f0|] eqn:Hmsg.
    - left. destruct message; try discriminate. injection Hmsg as ->.
      destruct (Hobj1 _ eq_refl) as [f1 ->]. destruct (Hobj2 _ eq_refl) as [f2 ->].
      apply settled_fixed; [exact (Hobj3 _ eq_refl)|exact Hset].
    - right. intros fields0 ->. discriminate. }
  destruct (match message with JDict f0 => Some f0 | _ => None end) as [f0|] eqn:Hmsg.
  - destruct message; try discriminate. injection Hmsg as ->.
    assert (S1 : settled "from_user" "[REDACTED_ID]" m3).
    { eapply settled_frame; [|exact H3|]; [discriminate|].
      eapply settled_frame; [|exact H2|]; [discriminate|].
      exact (redact_field_settles _ _ _ _ H1). }
    assert (S2 : settled "from" "[REDACTED_ID]" m3).
    { eapply settled_frame; [|exact H3|]; [discriminate|].
      exact (redact_field_settles _ _ _ _ H2). }
    assert (S3 : settled "chat" "[REDACTED_CHAT_ID]" m3)
      by exact (redact_field_settles _ _ _ _ H3).
    destruct (Hfixed _ _ S1) as [F1|Hbad]; [|exfalso; exact (Hbad _ eq_refl)].
    destruct (Hfixed _ _ S2) as [F2|Hbad]; [|exfalso; exact (Hbad _ eq_refl)].
    destruct (Hfixed _ _ S3) as [F3|Hbad]; [|exfalso; exact (Hbad _ eq_refl)].
    rewrite F1. simpl. rewrite F2. simpl. rewrite F3. simpl.
    rewrite (dict_set_same "message" m3); [reflexivity|].
    rewrite dict_get_set. reflexivity.
  - assert (Hother : forall fields0, message <> JDict fields0)
      by (intros fields0 ->; discriminate).
    rewrite (Hsame1 Hother) in *. rewrite (Hsame2 Hother) in *.
    rewrite (Hsame3 Hother) in *.
    rewrite H1. simpl. rewrite H2. simpl. rewrite H3. simpl.
    rewrite (dict_set_same "message" message); [reflexivity|].
    rewrite dict_get_set. reflexivity.
Qed.

(** X22. On an update of the shape Telegram sends (objects where objects
    are expected) [sanitize_user_data] does not raise, and its result has
    that shape again. *)
Theorem sanitize_accepts_updates update_data :
  update_shaped update_data ->
  exists sanitized,
    sanitize_user_data true update_data = Some sanitized /\ update_shaped sanitized.
Proof.
  unfold update_shaped, sanitize_user_data. simpl.
  destruct update_data as [| | | | | |fields]; try contradiction.
  destruct (dict_get "message" fields) as [message|] eqn:Hm.
  2: { intros _. eexists. split; [reflexivity|]. simpl. rewrite Hm. exact I. }
  destruct message as [| | | | | |message]; try contradiction.
  { intros _. eexists. split; [reflexivity|]. simpl. rewrite Hm. exact I. }
  intros (Hu & Hf & Hc).
  assert (Hfield : forall field mark d,
            object_or_absent (dict_get field d) ->
            exists d', redact_field field mark (JDict d) = Some (JDict d') /\
              object_or_absent (dict_get field d') /\
              (forall key, key <> field -> dict_get key d' = dict_get key d) /\
              (d <> [] -> d' <> [])).
  { intros field mark d Hobj. rewrite redact_field_object.
    destruct (dict_get field d) as [u|] eqn:Hget;
      [|exists d; rewrite Hget; repeat split; auto].
    destruct u as [| | | | | |u]; try contradiction.
    - exists d. simpl. rewrite Hget. repeat split; auto.
    - destruct u as [|p u]; simpl json_truthy; cbv iota.
      + exists d. rewrite Hget. repeat split; auto.
      + rewrite redact_names_object. simpl. eexists. split; [reflexivity|].
        rewrite dict_get_set, String.eqb_refl. split; [exact I|]. split.
        * intros key Hne. rewrite dict_get_set.
          apply not_eq_sym, String.eqb_neq in Hne. rewrite Hne. reflexivity.
        * intros _. destruct d as [|[k0 v0] d]; [discriminate|]. simpl.
          destruct (String.eqb k0 field); discriminate. }
  destruct message as [|p message].
  { eexists. split; [reflexivity|]. simpl. rewrite Hm. repeat split; exact I. }
  remember (p :: message) as d0 eqn:Hd0.
  assert (Hne0 : d0 <> []) by (subst d0; discriminate).
  replace (json_truthy (JDict d0)) with true by (subst d0; reflexivity).
  destruct (Hfield "from_user" "[REDACTED_ID]" d0 Hu) as (d1 & -> & Hu1 & Hfr1 & Hne1).
  simpl.
  assert (Hf1 : object_or_absent (dict_get "from" d1)) by (rewrite Hfr1 by discriminate; exact Hf).
  destruct (Hfield "from" "[REDACTED_ID]" d1 Hf1) as (d2 & -> & Hf2 & Hfr2 & Hne2).
  simpl.
  assert (Hc2 : object_or_absent (dict_get "chat" d2))
    by (rewrite Hfr2, Hfr1 by discriminate; exact Hc).
  destruct (Hfield "chat" "[REDACTED_CHAT_ID]" d2 Hc2) as (d3 & -> & Hc3 & Hfr3 & Hne3).
  simpl. eexists. split; [reflexivity|]. simpl. rewrite dict_get_set. simpl.
  rewrite !Hfr3 by discriminate. rewrite Hfr2 by discriminate.
  repeat split; assumption.
Qed.
End Redaction.


(** ** Amounts *)

Section Amounts.
Context `{rt : PyRuntime}.

Lemma not_leb_zero a :
  PrimFloat.leb a 0 = false -> PrimFloat.ltb 0 a = true \/ PrimFloat.is_nan a = true.
Proof.
  unfold PrimFloat.is_nan.
  rewrite leb_spec, ltb_spec, FloatAxioms.eqb_spec.
  change (Prim2SF 0) with (S754_zero false).
  destruct (Prim2SF a) as [s|s| |s mant e]; try destruct s; simpl; auto; discriminate.
Qed.

(** X23. [validate_amount] returns an amount only when [float] read it
    from the text and it is not at most zero: the amount is then greater
    than zero or a NaN.  In every other case it raises
    [InvalidAmountError] with the text it was given. *)
Theorem validate_amount_accepts amount_str :
  match validate_amount amount_str with
  | ValidAmount amount =>
      py_float amount_str = Some amount /\
      (PrimFloat.ltb 0 amount = true \/ PrimFloat.is_nan amount = true)
  | InvalidAmountError text =>
      text = amount_str /\
      (py_float amount_str = None \/
       exists amount, py_float amount_str = Some amount /\ PrimFloat.leb amount 0 = true)
  end.
Proof.
  unfold validate_amount. destruct (py_float amount_str) as [amount|]; [|auto].
  destruct (PrimFloat.leb amount 0) eqn:Hle.
  - split; [reflexivity|]. right. eauto.
  - split; [reflexivity|]. apply not_leb_zero, Hle.
Qed.
End Amounts.


(** * Worked examples

    The properties above, applied to the sample pages with the concrete
    runtime, and the inputs on which the code departs from the written
    specification. *)

#[local] Existing Instance ascii_runtime.

Lemma sample_env_settings : Settings_init sample_env = Return sample_settings.
Proof. vm_compute. reflexivity. Qed.

Lemma sample_env_module : import_module sample_env = Return sample_module.
Proof. vm_compute. reflexivity. Qed.

Lemma usd_page_fetched :
  fetch_configured sample_module (serving usd_page) 1000 ∅
    = (Return (usd_data, None, None), usd_cache).
Proof. vm_compute. reflexivity. Defined.

Lemma odd_page_fetched :
  fetch_configured sample_module (serving odd_page) 1000 ∅
    = (Return (odd_data, None, None), odd_cache).
Proof. vm_compute. reflexivity. Defined.

(** C1 fails as written. On the odd page HKD and CNY both resolve in the
    table, HKD by its code; the configuration has no display name for HKD,
    and the rate from HKD to CNY is a bare [None], not 92.5 / 100.  On the
    same page USD resolves to zero, and the rate from CNY to USD is the
    failure triple, not a quotient. *)
Lemma hkd_resolves_yet_no_rate :
  let lookup := resolve (CURRENCY_NAMES sample_settings) (currencies odd_data) in
  let rate from to :=
    (get_exchange_rate sample_module (serving odd_page) 1000 ∅ from to).1 in
  (lookup "HKD" = Some 92.5%float /\ lookup "CNY" = Some 50%float /\
   rate "HKD" "CNY" = RNone) /\
  (lookup "USD" = Some 0%float /\
   rate "CNY" "USD" = RTuple None (Some false) (Some 1600%Z)).
Proof. repeat split; vm_compute; reflexivity. Qed.

(** C1 as amended, on the sample page: the table holds 727.67 for USD, and
    the rate from USD to CNY is 7.2767. *)
Lemma usd_to_cny_is_7_2767 :
  resolve (CURRENCY_NAMES sample_settings) (currencies usd_data) "USD" = Some 727.67%float /\
  (get_exchange_rate sample_module (serving usd_page) 1000 ∅ "USD" "CNY").1
    = RTuple (Some 7.2767%float) None None.
Proof.
  split; [vm_compute; reflexivity|].
  destruct (get_exchange_rate_formula sample_module (serving usd_page) 1000 ∅
              "USD" "CNY" (usd_data, None, None) usd_cache "美元" "人民币")
    as [Hto_cny _];
    [exact usd_page_fetched | reflexivity | discriminate | reflexivity | discriminate |].
  rewrite (Hto_cny eq_refl 727.67%float); vm_compute; reflexivity.
Defined.

(** C4 fails as written: on the page with the euro alone, USD and JPY are
    named and resolve neither by code nor by display name.  For either one
    the [try] block raises nothing: it returns, and what it returns is a
    bare [None].  The result for USD is the result for JPY, so nothing reads
    the unresolved code off it. *)
Lemma unresolved_code_is_not_carried :
  let names := CURRENCY_NAMES sample_settings in
  let result from :=
    (get_exchange_rate sample_module (serving eur_page) 1000 ∅ from "CNY").1 in
  (fetch_configured sample_module (serving eur_page) 1000 ∅).1
    = Return (eur_data, None, None) /\
  resolve names (currencies eur_data) "USD" = None /\
  resolve names (currencies eur_data) "JPY" = None /\
  (forall e, get_exchange_rate_try sample_module (eur_data, None, None) "USD" "CNY"
               <> Raise e) /\
  (forall e, get_exchange_rate_try sample_module (eur_data, None, None) "JPY" "CNY"
               <> Raise e) /\
  result "USD" = RNone /\ result "JPY" = RNone /\
  ~ exists code_of : rate_result -> string,
      code_of (result "USD") = "USD" /\ code_of (result "JPY") = "JPY".
Proof.
  assert (Husd : (get_exchange_rate sample_module (serving eur_page) 1000 ∅
                    "USD" "CNY").1 = RNone) by (vm_compute; reflexivity).
  assert (Hjpy : (get_exchange_rate sample_module (serving eur_page) 1000 ∅
                    "JPY" "CNY").1 = RNone) by (vm_compute; reflexivity).
  cbv zeta.
  split; [vm_compute; reflexivity|].
  split; [vm_compute; reflexivity|].
  split; [vm_compute; reflexivity|].
  split; [intros e; vm_compute; discriminate|].
  split; [intros e; vm_compute; discriminate|].
  split; [exact Husd|]. split; [exact Hjpy|].
  intros (code_of & Hu & Hj). rewrite Husd in Hu. rewrite Hjpy in Hj.
  rewrite Hu in Hj. discriminate Hj.
Qed.

(** C4 as amended, on the sample page: JPY is named but has no row. *)
Lemma jpy_unresolved_is_None :
  resolve (CURRENCY_NAMES sample_settings) (currencies usd_data) "JPY" = None /\
  (get_exchange_rate sample_module (serving usd_page) 1000 ∅ "USD" "JPY").1 = RNone.
Proof.
  split; [vm_compute; reflexivity|].
  apply (unresolved_rate_is_None sample_module (serving usd_page) 1000 ∅
           "USD" "JPY" (usd_data, None, None) usd_cache usd_page_fetched).
  right. right. split; [discriminate|]. split; [discriminate|].
  right. vm_compute. reflexivity.
Defined.

(** C6 fails as written: a negative divisor is not rejected.  With -5 for
    JPY the conversion from CNY to JPY returns -20. *)
Lemma negative_divisor_accepted :
  resolve (CURRENCY_NAMES sample_settings) (currencies odd_data) "JPY" = Some (-5)%float /\
  PrimFloat.leb (-5) 0 = true /\
  (get_exchange_rate sample_module (serving odd_page) 1000 ∅ "CNY" "JPY").1
    = RTuple (Some (-20)%float) None None.
Proof. repeat split; vm_compute; reflexivity. Qed.

(** C6 as amended, on the same page: USD is quoted at zero. *)
Lemma zero_usd_rate_is_caught :
  resolve (CURRENCY_NAMES sample_settings) (currencies odd_data) "USD" = Some 0%float /\
  (get_exchange_rate sample_module (serving odd_page) 1000 ∅ "CNY" "USD").1
    = RTuple None (Some false) (Some 1600%Z).
Proof.
  split; [vm_compute; reflexivity|].
  apply (zero_divisor_is_caught sample_module (serving odd_page) 1000 ∅
           "CNY" "USD" (odd_data, None, None) odd_cache "人民币" "美元" 0%float
           odd_page_fetched);
    try discriminate; try (vm_compute; reflexivity).
  exists 0%float. vm_compute. reflexivity.
Defined.

(** C8 fails as written, in four ways: a rate of zero (the division raises),
    an infinite rate (the quotient is a NaN), the base currency when the
    table has a row for it (its rate over 100), and a currency that the
    table holds but the configuration does not name. *)
Lemma same_currency_not_one :
  let rate X := (get_exchange_rate sample_module (serving odd_page) 1000 ∅ X X).1 in
  let table := currencies odd_data in
  (table !! "USD" = Some 0%float /\ rate "USD" = RTuple None (Some false) (Some 1600%Z)) /\
  (table !! "EUR" = Some infinity /\ rate "EUR" = RTuple (Some nan) None None) /\
  (table !! "CNY" = Some 50%float /\ rate "CNY" = RTuple (Some 0.5%float) None None) /\
  (table !! "HKD" = Some 92.5%float /\ rate "HKD" = RNone).
Proof. repeat split; vm_compute; reflexivity. Qed.

(** C8 as amended, on the sample page. *)
Lemma usd_to_usd_is_one :
  (get_exchange_rate sample_module (serving usd_page) 1000 ∅ "USD" "USD").1
    = RTuple (Some 1%float) None None.
Proof.
  apply (same_currency_rate_is_one sample_module (serving usd_page) 1000 ∅
           "USD" (usd_data, None, None) usd_cache "美元" 727.67%float
           usd_page_fetched);
    try discriminate; vm_compute; reflexivity.
Defined.

(** C10 on the odd page: the table holds a rate under the code HKD, the
    configuration has no display name for HKD, and the answer is [None]. *)
Lemma hkd_without_name_is_None :
  currencies odd_data !! "HKD" = Some 92.5%float /\
  dict_get "HKD" (CURRENCY_NAMES sample_settings) = None /\
  (get_exchange_rate sample_module (serving odd_page) 1000 ∅ "HKD" "CNY").1 = RNone.
Proof.
  split; [vm_compute; reflexivity|]. split; [reflexivity|].
  destruct (missing_name_is_failure sample_module (serving odd_page) 1000 ∅
              "HKD" "CNY" (or_introl eq_refl)) as [_ Hnone].
  exact (Hnone (odd_data, None, None) odd_cache odd_page_fetched).
Defined.



(** C3 does not hold of the code. A first lookup at time 1000 fetches the
    sample page, and a second at time 1001, with the network down, is served
    from the cache; both return the table with [None] for [is_cached] and
    for [next_update], where the contract has [False] and 1600 for the
    first, [True] and 1600 for the second. *)
Theorem fetched_metadata_is_None :
  let first :=
    fetch_and_parse_rate_data sample_module (serving usd_page) 1000 ∅ sample_url in
  let second :=
    fetch_and_parse_rate_data sample_module (fun _ => HttpNetwork) 1001 first.2 sample_url in
  first = (Return (usd_data, None, None), usd_cache) /\
  second = (Return (usd_data, None, None), usd_cache).
Proof. split; vm_compute; reflexivity. Qed.


(** C9 fails as written: the first row's publication-time cell is empty, the
    second row's is not, and the table's publication time is the empty
    string. *)
Lemma blank_time_is_published :
  published_at (_parse_exchange_rate_data sample_settings blank_time_page) = Some "" /\
  first_nonempty_pub_time 3 blank_time_rows = Some "2025.05.02 20:58:58".
Proof. split; vm_compute; reflexivity. Qed.

(** C9 as amended, on the same page. *)
Lemma blank_time_is_first_offered :
  exists cur,
    _parse_exchange_rate_data sample_settings blank_time_page
      = PData {| currencies := cur; last_updated := Some "" |}.
Proof.
  destruct (published_time_is_first_offered sample_settings blank_time_page
              {| bgcolor := Some "#EAEAEA"; tr_rows := rate_header :: blank_time_rows |}
              rate_header blank_time_rows eq_refl eq_refl) as [[cur Hparse] _];
    try (apply (bool_decide_unpack _); vm_compute; exact I).
  exists cur. exact Hparse.
Defined.

(** C7 fails as written: with [CACHE_TIMEOUT=0] in the environment the
    settings are built and the service is imported without an error. *)
Lemma zero_timeout_accepted :
  zero_timeout_env !! "CACHE_TIMEOUT" = Some "0" /\
  import_module zero_timeout_env =
    Return {| settings :=
                {| APP_PORT := 8000;
                   APP_WORKERS := 4;
                   CACHE_TIMEOUT := 0;
                   BOC_URL := BOC_URL sample_settings;
                   SUPPORTED_CURRENCIES := SUPPORTED_CURRENCIES sample_settings;
                   CURRENCY_NAMES := CURRENCY_NAMES sample_settings |};
              CACHE_TTL := 600 |}.
Proof. split; vm_compute; reflexivity. Qed.

(** C7 as amended, on the same environment. *)
Lemma zero_timeout_is_kept :
  exists m, import_module zero_timeout_env = Return m /\ CACHE_TIMEOUT (settings m) = 0%Z.
Proof.
  apply (settings_accept_any_timeout zero_timeout_env 8000 4 0);
    vm_compute; reflexivity.
Defined.

(** * More worked examples *)

#[local] Existing Instance ascii_str.

Lemma parse_list_sample :
  _parse_list "USD,EUR,JPY,CNY" = ["USD"; "EUR"; "JPY"; "CNY"] /\
  _parse_list "USD,,CNY," = ["USD"; ""; "CNY"; ""] /\
  _parse_dict "USD:美元,broken,USD:美金,A:b:c" = [("USD", "美金"); ("A", "b:c")].
Proof. repeat split; vm_compute; reflexivity. Qed.

(** X7 on the sample page: the rate stored under USD is read from a row. *)
Lemma usd_rate_comes_from_a_row :
  exists row name,
    row ∈ [data_row ["美元"; "717.25"; "727.67"; "2025.05.02 20:58:58"];
           data_row ["欧元"; "810.12"; "824.88"; "2025.05.02 20:58:58"]] /\
    name <> "" /\
    py_float (cell (td_text row) 2) = Some 727.67%float /\
    ("USD" = name \/
     reverse_currency_map (CURRENCY_NAMES sample_settings) !! name = Some "USD").
Proof.
  destruct (parsed_rates_provenance sample_settings usd_page
              {| bgcolor := Some "#EAEAEA";
                 tr_rows := [rate_header;
                             data_row ["美元"; "717.25"; "727.67"; "2025.05.02 20:58:58"];
                             data_row ["欧元"; "810.12"; "824.88"; "2025.05.02 20:58:58"]] |}
              rate_header _ usd_data "USD" 727.67%float eq_refl eq_refl)
    as (row & name & Hin & _ & Hne & Hfloat & Hkey);
    [vm_compute; reflexivity | vm_compute; reflexivity |].
  exists row, name. split; [exact Hin|]. split; [exact Hne|]. split; [exact Hfloat|].
  exact Hkey.
Defined.

(** X8 on the sample configuration, whose display names are distinct. *)
Lemma sample_names_invert :
  reverse_currency_map (CURRENCY_NAMES sample_settings) !! "美元" = Some "USD".
Proof.
  destruct (reverse_map_round_trip (CURRENCY_NAMES sample_settings)) as (_ & _ & Hinv).
  apply Hinv; [|reflexivity].
  apply (bool_decide_unpack _). vm_compute. exact I.
Defined.

Lemma usd_page_missed : cache_get 1000 ∅ sample_url = None.
Proof. apply cache_get_empty. Defined.

Lemma usd_page_stored :
  fetch_and_parse_rate_data sample_module (serving usd_page) 1000 ∅ sample_url
    = (Return (usd_data, None, None), usd_cache).
Proof. vm_compute. reflexivity. Defined.

(** X10 on the sample page: one second before the entry expires, with the
    network down, the table comes from the cache. *)
Lemma usd_page_served_until_1600 :
  fetch_and_parse_rate_data sample_module (fun _ => HttpNetwork) 1599 usd_cache sample_url
    = (Return (usd_data, None, None), usd_cache).
Proof.
  apply (fresh_entry_is_served sample_module (serving usd_page) 1000 ∅ sample_url
           (usd_data, None, None) usd_cache usd_page_missed usd_page_stored).
  reflexivity.
Defined.

(** X11 on the sample page: at time 1600, with the network down, the call
    fails although the cache still holds the table. *)
Lemma usd_page_gone_at_1600 :
  fetch_and_parse_rate_data sample_module (fun _ => HttpNetwork) 1600 usd_cache sample_url
    = (Raise (Exception NetworkError), usd_cache).
Proof.
  rewrite (expired_entry_is_refetched sample_module (serving usd_page) 1000 ∅ sample_url
             (usd_data, None, None) usd_cache usd_page_missed usd_page_stored
             (fun _ => HttpNetwork) 1600); [reflexivity|].
  vm_compute. discriminate.
Defined.

Lemma usd_cache_reachable : reachable sample_module usd_cache.
Proof.
  assert (Hcache : (fetch_and_parse_rate_data sample_module (serving usd_page) 1000 ∅
                      sample_url).2 = usd_cache)
    by (rewrite usd_page_stored; reflexivity).
  rewrite <- Hcache. apply reachable_fetch, reachable_empty.
Defined.

(** X13 on the cache that the sample page leaves. *)
Lemma usd_cache_has_no_metadata : no_metadata usd_cache.
Proof. exact (proj1 (reachable_no_metadata sample_module usd_cache usd_cache_reachable)). Defined.

(** X14 with the network down and nothing cached. *)
Lemma network_down_no_rate :
  get_exchange_rate sample_module (fun _ => HttpNetwork) 1000 ∅ "USD" "CNY"
    = (RTuple None (Some false) (Some 1600%Z), ∅).
Proof.
  apply (no_table_no_rate sample_module (fun _ => HttpNetwork) 1000 ∅ "USD" "CNY").
  right. exists sample_url. split; [reflexivity|]. split; [apply cache_get_empty|].
  intros d. vm_compute. discriminate.
Defined.

(** X15 on the cache that the sample page leaves. *)
Lemma usd_result_shape :
  let result :=
    (get_exchange_rate sample_module (fun _ => HttpNetwork) 1001 usd_cache "USD" "EUR").1 in
  result = RNone \/ result = failure_result sample_module 1001 \/
  exists q, result = RTuple (Some q) None None.
Proof.
  exact (result_shapes sample_module (fun _ => HttpNetwork) 1001 usd_cache "USD" "EUR"
           (reachable_is_no_metadata sample_module usd_cache usd_cache_reachable)).
Defined.

(** X16 on the sample page: the row of 美元 gives the rate from USD to CNY. *)
Lemma usd_row_gives_7_2767 :
  (get_exchange_rate sample_module (serving usd_page) 1000 ∅ "USD" "CNY").1
    = RTuple (Some 7.2767%float) None None.
Proof.
  rewrite (page_row_gives_cny_rate sample_module (serving usd_page) 1000 ∅ sample_url
             usd_page
             {| bgcolor := Some "#EAEAEA";
                tr_rows := [rate_header;
                            data_row ["美元"; "717.25"; "727.67"; "2025.05.02 20:58:58"];
                            data_row ["欧元"; "810.12"; "824.88"; "2025.05.02 20:58:58"]] |}
             rate_header []
             [data_row ["欧元"; "810.12"; "824.88"; "2025.05.02 20:58:58"]]
             (data_row ["美元"; "717.25"; "727.67"; "2025.05.02 20:58:58"])
             "USD" "美元" 727.67%float);
    try reflexivity;
    try (apply (bool_decide_unpack _); vm_compute; exact I);
    try (vm_compute; reflexivity).
Defined.


(** X18 on the sample page. *)
Lemma listings_on_sample_page :
  (rate_command sample_module (serving usd_page) 1000 ∅).1 = RateError NoStrftime /\
  (currency_command sample_module (serving usd_page) 1000 ∅).1 = inl NoStrftime /\
  ((rate_command sample_module (serving usd_page) 1000 ∅).1 = NoRateData \/
   exists e, (rate_command sample_module (serving usd_page) 1000 ∅).1 = RateError e).
Proof.
  split; [vm_compute; reflexivity|]. split; [vm_compute; reflexivity|].
  exact (proj1 (listings_never_answer sample_module (serving usd_page) 1000 ∅
                  (reachable_empty sample_module))).
Defined.

Lemma sample_update_sanitized :
  sanitize_user_data true sample_update = Some sanitized_sample_update.
Proof. vm_compute. reflexivity. Defined.

(** X19 on the sample update. *)
Lemma sample_update_is_redacted :
  json_path ["message"; "from_user"; "first_name"] sanitized_sample_update
    = Some (JStr "[REDACTED]") /\
  forall v, json_path ["message"; "chat"; "id"] sanitized_sample_update = Some v ->
            v = JStr "[REDACTED_CHAT_ID]".
Proof.
  split; [vm_compute; reflexivity|].
  destruct (sanitize_redacts sample_update sanitized_sample_update
              sample_update_sanitized "chat") as [_ Hid];
    [apply (bool_decide_unpack _); vm_compute; exact I | exact Hid].
Defined.

(** X20 on the sample update: the last name and the text stay. *)
Lemma sample_update_keeps_last_name :
  json_path ["message"; "from_user"; "last_name"] sanitized_sample_update
    = Some (JStr "Liddell") /\
  json_path ["message"; "text"] sanitized_sample_update
    = Some (JStr "/cny_convert usd 100").
Proof.
  destruct (sanitize_frame sample_update sanitized_sample_update sample_update_sanitized)
    as (_ & Hmessage & Huser).
  split.
  - rewrite (Huser "from_user" "last_name"); [reflexivity | discriminate..].
  - rewrite (Hmessage "text"); [reflexivity|].
    apply (bool_decide_unpack _). vm_compute. exact I.
Defined.

(** X21 on the sample update. *)
Lemma sample_update_sanitized_twice :
  sanitize_user_data true sanitized_sample_update = Some sanitized_sample_update.
Proof.
  exact (sanitize_idempotent sample_update sanitized_sample_update sample_update_sanitized).
Defined.

(** X22 on the sample update. *)
Lemma sample_update_is_accepted :
  exists sanitized,
    sanitize_user_data true sample_update = Some sanitized /\ update_shaped sanitized.
Proof.
  apply (sanitize_accepts_updates sample_update). vm_compute. repeat split.
Defined.

(** A text among the words of which is a key makes the function raise. *)
Lemma sanitize_raises_on_text :
  sanitize_user_data true (JDict [("message", JStr "my from_user")]) = None.
Proof. reflexivity. Qed.

Lemma validate_amount_samples :
  validate_amount "100" = ValidAmount 100 /\
  validate_amount "-5" = InvalidAmountError "-5" /\
  validate_amount "0" = InvalidAmountError "0" /\
  validate_amount "abc" = InvalidAmountError "abc" /\
  validate_amount "nan" = ValidAmount nan /\
  validate_amount "inf" = ValidAmount infinity.
Proof. repeat split; vm_compute; reflexivity. Qed.
